(** * treqs: per-request runtime tracing for HTTP handlers

    A shallow embedding of package [treqs] (the [Tracer] middleware) and the
    properties of its request classifier, its session registry and its use of
    the readers-writer lock.

    Go strings are byte strings and are modelled by [string] (one [ascii] per
    byte); byte slices are [list byte]; Go maps are [gmap]s, the nil map being
    [None]. *)

From Stdlib.Strings Require Import Ascii String Byte.
From Stdlib Require Import NArith Bool.
From stdpp Require Import base tactics option list strings gmap fin_maps.

Local Open Scope string_scope.

(** ** Strings and bytes *)

Module Strings.

Definition is_upper (c : ascii) : bool :=
  (65 <=? nat_of_ascii c)%nat && (nat_of_ascii c <=? 90)%nat.

Definition is_lower (c : ascii) : bool :=
  (97 <=? nat_of_ascii c)%nat && (nat_of_ascii c <=? 122)%nat.

Definition lower_byte (c : ascii) : ascii :=
  if is_upper c then ascii_of_nat (nat_of_ascii c + 32) else c.

Definition upper_byte (c : ascii) : ascii :=
  if is_lower c then ascii_of_nat (nat_of_ascii c - 32) else c.

(** [strings.ToLower].  The library function maps every Unicode letter to
    its lower case; the model lowers the ASCII letters and leaves the other
    bytes alone.  The two agree on whether the result is one of the ASCII
    words the dispatcher compares with, because no rune outside ASCII
    lowers to one of the letters of those words. *)
Fixpoint ToLower (s : string) : string :=
  match s with
  | EmptyString => EmptyString
  | String c s' => String (lower_byte c) (ToLower s')
  end.

Fixpoint all_bytes (p : ascii -> bool) (s : string) : bool :=
  match s with
  | EmptyString => true
  | String c s' => p c && all_bytes p s'
  end.

(** Equality up to the case of ASCII letters, written without [ToLower]:
    same length, and position by position the same byte once lowered. *)
Fixpoint eq_fold (s1 s2 : string) : bool :=
  match s1, s2 with
  | EmptyString, EmptyString => true
  | String c1 r1, String c2 r2 =>
      Ascii.eqb (lower_byte c1) (lower_byte c2) && eq_fold r1 r2
  | _, _ => false
  end.

End Strings.

Module Hex.

Definition hextable : string := "0123456789abcdef".

Definition digit (n : nat) : ascii :=
  match String.get n hextable with
  | Some c => c
  | None => "0"%char
  end.

(** [hex.EncodeToString]: two lower-case digits per byte, high nibble first. *)
Fixpoint EncodeToString (b : list byte) : string :=
  match b with
  | [] => EmptyString
  | x :: b' =>
      let n := N.to_nat (Byte.to_N x) in
      String (digit (n / 16)) (String (digit (n mod 16)) (EncodeToString b'))
  end.

End Hex.

(** ** [http.Header] *)

Abbreviation Header := (gmap string (list string)).

Module Hdr.

Definition is_digit (c : ascii) : bool :=
  (48 <=? nat_of_ascii c)%nat && (nat_of_ascii c <=? 57)%nat.

(** The token bytes of a header field name. *)
Definition validHeaderFieldByte (c : ascii) : bool :=
  Strings.is_upper c || Strings.is_lower c || is_digit c
  || existsb (Ascii.eqb c) (list_ascii_of_string "!#$%&'*+-.^_`|~").

Fixpoint canon (upper : bool) (s : string) : string :=
  match s with
  | EmptyString => EmptyString
  | String c s' =>
      let c' := if upper then Strings.upper_byte c else Strings.lower_byte c in
      String c' (canon (Ascii.eqb c' "-"%char) s')
  end.

(** [textproto.CanonicalMIMEHeaderKey]: a name with a byte that is not a
    token byte is returned as it is; otherwise the first letter and every
    letter after a dash are upper-cased and the others lower-cased. *)
Definition CanonicalMIMEHeaderKey (s : string) : string :=
  if Strings.all_bytes validHeaderFieldByte s then canon true s else s.

(** [Header.Get]: first value stored under the canonical form of the name. *)
Definition Get (h : Header) (k : string) : string :=
  match h !! CanonicalMIMEHeaderKey k with
  | Some (v :: _) => v
  | _ => EmptyString
  end.

(** [Header.Set]: the canonical name is bound to the single value. *)
Definition Set_ (h : Header) (k v : string) : Header :=
  <[CanonicalMIMEHeaderKey k := [v]]> h.

(** [Header.Del]. *)
Definition Del (h : Header) (k : string) : Header :=
  delete (CanonicalMIMEHeaderKey k) h.

End Hdr.

Definition xTReqsAction : string := "X-Treqs-Action".
Definition xTReqsID : string := "X-Treqs-Id".
Definition xTReqsKey : string := "X-Treqs-Key".

(** ** [scrubHeader] *)

(** The loop variables of [scrubHeader]: the three named results and the
    header map, which the loop mutates. *)
Record ScrubState := MkScrub {
  sc_key : string;
  sc_action : string;
  sc_id : string;
  sc_hdr : Header
}.

(** One iteration of [for k := range hdr].  An entry deleted before the
    iteration reaches it is not produced by [range]. *)
Definition scrubIter (k : string) (st : ScrubState) : ScrubState :=
  match sc_hdr st !! k with
  | None => st
  | Some _ =>
      let hdr := sc_hdr st in
      let st' :=
        if String.eqb k xTReqsKey then
          if String.eqb (sc_key st) EmptyString then
            MkScrub (Hdr.Get hdr k) (sc_action st) (sc_id st) hdr
          else st
        else if String.eqb k xTReqsAction then
          if String.eqb (sc_action st) EmptyString then
            MkScrub (sc_key st) (Hdr.Get hdr k) (sc_id st) hdr
          else st
        else if String.eqb k xTReqsID then
          if String.eqb (sc_id st) EmptyString then
            MkScrub (sc_key st) (sc_action st) (Hdr.Get hdr k) hdr
          else st
        else st in
      MkScrub (sc_key st') (sc_action st') (sc_id st') (delete k hdr)
  end.

(** The loop, for the order [ks] in which [range] produces the names. *)
Fixpoint scrubRange (ks : list string) (st : ScrubState) : ScrubState :=
  match ks with
  | [] => st
  | k :: ks' => scrubRange ks' (scrubIter k st)
  end.

(** Go leaves the iteration order of a map unspecified; [scrubHeader] takes
    the order of [map_to_list], and [scrubRange_any_order] below shows that
    the order does not matter. *)
Definition scrubHeader (hdr : Header) : ScrubState :=
  scrubRange (map_to_list hdr).*1 (MkScrub EmptyString EmptyString EmptyString hdr).

(** ** Requests and response writers *)

Record Request := MkRequest {
  r_method : string;
  r_url : string;
  r_header : Header;
  r_body : list byte
}.

(** The request after [scrubHeader] has run on its header map: the request
    is a pointer and the map is shared, so the caller's request changes. *)
Definition with_header (r : Request) (h : Header) : Request :=
  MkRequest (r_method r) (r_url r) h (r_body r).

(** [http.ResponseWriter] as the server implements it: a live header map,
    and once the status line is written, the status and the headers sent
    with it; later changes of the map are not sent. *)
Record ResponseWriter := MkRW {
  rw_header : Header;
  rw_wroteHeader : bool;
  rw_status : nat;
  rw_sent : Header;
  rw_body : list byte
}.

Module RW.

Definition new : ResponseWriter := MkRW ∅ false 0 ∅ [].

Definition HeaderSet (w : ResponseWriter) (k v : string) : ResponseWriter :=
  MkRW (Hdr.Set_ (rw_header w) k v) (rw_wroteHeader w) (rw_status w)
       (rw_sent w) (rw_body w).

Definition HeaderDel (w : ResponseWriter) (k : string) : ResponseWriter :=
  MkRW (Hdr.Del (rw_header w) k) (rw_wroteHeader w) (rw_status w)
       (rw_sent w) (rw_body w).

Definition WriteHeader (w : ResponseWriter) (code : nat) : ResponseWriter :=
  if rw_wroteHeader w then w
  else MkRW (rw_header w) true code (rw_header w) (rw_body w).

Definition Write (w : ResponseWriter) (data : list byte) : ResponseWriter :=
  let w' := WriteHeader w 200 in
  MkRW (rw_header w') (rw_wroteHeader w') (rw_status w') (rw_sent w')
       (rw_body w' ++ data).

Definition WriteString (w : ResponseWriter) (s : string) : ResponseWriter :=
  Write w (list_byte_of_string s).

End RW.

Definition StatusOK : nat := 200.
Definition StatusNotFound : nat := 404.
Definition StatusInternalServerError : nat := 500.

Definition newline : string := String (ascii_of_nat 10) EmptyString.

(** [http.Error] and [http.NotFound] of the standard library. *)
Definition http_Error (w : ResponseWriter) (error : string) (code : nat)
  : ResponseWriter :=
  let w := RW.HeaderDel w "Content-Length" in
  let w := RW.HeaderSet w "Content-Type" "text/plain; charset=utf-8" in
  let w := RW.HeaderSet w "X-Content-Type-Options" "nosniff" in
  let w := RW.WriteHeader w code in
  RW.WriteString w (error ++ newline).

Definition http_NotFound (w : ResponseWriter) (r : Request) : ResponseWriter :=
  http_Error w "404 page not found" StatusNotFound.

(** ** The tracer and the state it shares between requests *)

(** The fields of [Tracer] that are set at construction and never change.
    The wrapped handler is taken to return: it is a function from the
    response writer and the request it is given to the response writer it
    leaves, and it does not reach the tracer's own fields. *)
Record Tracer := MkTracer {
  Handler : ResponseWriter -> Request -> ResponseWriter;
  Key : string
}.

(** [sync.RWMutex]: whether a writer holds it, and how many readers do. *)
Record RWMutex := MkMu {
  writer : bool;
  readers : nat
}.

Inductive Event :=
| EvLock
| EvUnlock
| EvRLock
| EvRUnlock
| EvRand
| EvTraceStart (ok : bool)
| EvTraceStop
| EvServe (r : Request)
| EvLookup (id : string)
| EvStore (id : string)
| EvMake.

(** An operation of request [le_tid], with the state of the mutex at the
    moment the operation ran. *)
Record LogEntry := MkEntry {
  le_tid : nat;
  le_ev : Event;
  le_mu : RWMutex
}.

(** The fields [mu] and [traces] of the tracer, and a history of the
    operations run so far (newest first), kept for the statements only. *)
Record State := MkState {
  mu : RWMutex;
  traces : option (gmap string (list byte));
  history : list LogEntry
}.

(** The zero value of the mutable fields, as [&Tracer{Key: k, Handler: h}]
    leaves them: an unlocked mutex and a nil map. *)
Definition newState : State := MkState (MkMu false 0) None [].

(** What one request gets from outside the program: the bytes the random
    source can deliver, whether the runtime tracer starts, and the bytes the
    runtime writes into the buffer until the tracer is stopped. *)
Record Env := MkEnv {
  rand_bytes : list byte;
  start_err : option string;
  captured : list byte
}.

(** ** Programs over the shared state *)

(** The operations of a request on what it shares with the others. *)
Inductive Cmd : Type -> Type :=
| Lock : Cmd unit
| Unlock : Cmd unit
| RLock : Cmd unit
| RUnlock : Cmd unit
| ReadFull (n : nat) : Cmd (option (list byte))
| TraceStart : Cmd (option string)
| TraceStop : Cmd (list byte)
| Serve (w : ResponseWriter) (r : Request) : Cmd ResponseWriter
| MapLookup (id : string) : Cmd (option (list byte))
| MapStore (id : string) (buf : list byte) : Cmd unit
| MapMake : Cmd unit.

Inductive Prog (A : Type) : Type :=
| Ret (a : A)
| Panic (msg : string)
| Do {B : Type} (c : Cmd B) (k : B -> Prog A).

Arguments Ret {A} a.
Arguments Panic {A} msg.
Arguments Do {A B} c k.

Notation "'let*' x ':=' c 'in' k" := (Do c (fun x => k))
  (at level 10, x name, c at level 100, k at level 200).

Inductive Res (A : Type) : Type :=
| Ok (a : A) (s : State)
| Panicked (msg : string) (s : State)
| Blocked.

Arguments Ok {A} a s.
Arguments Panicked {A} msg s.
Arguments Blocked {A}.

Definition record (tid : nat) (e : Event) (s : State) : list LogEntry :=
  MkEntry tid e (mu s) :: history s.

(** One operation of request [tid].  [Lock] waits for the mutex to be free
    and [RLock] for it to have no writer; a store into the nil map panics,
    and a lookup in it finds nothing.  A [Lock] that waits leaves no mark
    on the mutex: [sync.RWMutex] also keeps a new [RLock] waiting behind a
    [Lock] that waits, so the runs of this model are those of the program
    and more, and what holds of every run here holds of every run there. *)
Definition interp (t : Tracer) (env : Env) (tid : nat) {B : Type}
    (c : Cmd B) (s : State) : Res B :=
  match c in Cmd B return Res B with
  | Lock =>
      if writer (mu s) || negb (readers (mu s) =? 0)%nat then Blocked
      else Ok tt (MkState (MkMu true 0) (traces s) (record tid EvLock s))
  | Unlock =>
      if writer (mu s) then
        Ok tt (MkState (MkMu false (readers (mu s))) (traces s)
                       (record tid EvUnlock s))
      else Panicked "sync: Unlock of unlocked RWMutex" s
  | RLock =>
      if writer (mu s) then Blocked
      else Ok tt (MkState (MkMu false (S (readers (mu s)))) (traces s)
                          (record tid EvRLock s))
  | RUnlock =>
      match readers (mu s) with
      | O => Panicked "sync: RUnlock of unlocked RWMutex" s
      | S n => Ok tt (MkState (MkMu (writer (mu s)) n) (traces s)
                              (record tid EvRUnlock s))
      end
  | ReadFull n =>
      Ok (if (n <=? length (rand_bytes env))%nat
          then Some (take n (rand_bytes env)) else None)
         (MkState (mu s) (traces s) (record tid EvRand s))
  | TraceStart =>
      Ok (start_err env)
         (MkState (mu s) (traces s)
                  (record tid (EvTraceStart (bool_decide (start_err env = None))) s))
  | TraceStop =>
      Ok (captured env) (MkState (mu s) (traces s) (record tid EvTraceStop s))
  | Serve w r =>
      Ok (Handler t w r) (MkState (mu s) (traces s) (record tid (EvServe r) s))
  | MapLookup id =>
      Ok (match traces s with Some m => m !! id | None => None end)
         (MkState (mu s) (traces s) (record tid (EvLookup id) s))
  | MapStore id buf =>
      match traces s with
      | Some m => Ok tt (MkState (mu s) (Some (<[id := buf]> m))
                                 (record tid (EvStore id) s))
      | None => Panicked "assignment to entry in nil map" s
      end
  | MapMake =>
      Ok tt (MkState (mu s) (Some ∅) (record tid EvMake s))
  end.

(** A request run alone, from its first operation to its return. *)
Fixpoint exec (t : Tracer) (env : Env) (tid : nat) {A : Type}
    (p : Prog A) (s : State) : Res A :=
  match p with
  | Ret a => Ok a s
  | Panic msg => Panicked msg s
  | Do c k =>
      match interp t env tid c s with
      | Ok b s' => exec t env tid (k b) s'
      | Panicked msg s' => Panicked msg s'
      | Blocked => Blocked
      end
  end.

(** ** The handlers of [Tracer] *)

(** [randHex]: 32 bytes of the random source, hex-encoded; a source that
    cannot deliver them makes the request panic. *)
Definition randHex {A : Type} (k : string -> Prog A) : Prog A :=
  let* got := ReadFull 32 in
  match got with
  | Some b => k (Hex.EncodeToString b)
  | None => Panic "unexpected EOF"
  end.

(** The [default] case of the switch of [ServeHTTP]; the deferred
    [RUnlock] runs when the handler has returned. *)
Definition passthrough (w : ResponseWriter) (r : Request) : Prog ResponseWriter :=
  let* _ := RLock in
  let* w := Serve w r in
  let* _ := RUnlock in
  Ret w.

Definition read (id : string) (w : ResponseWriter) (r : Request)
  : Prog ResponseWriter :=
  let* _ := RLock in
  let* found := MapLookup id in
  match found with
  | None =>
      let w := http_NotFound w r in
      let* _ := RUnlock in
      Ret w
  | Some buf =>
      let w := RW.HeaderSet w "Content-Type" "application/octet-stream" in
      let w := RW.Write w buf in
      let* _ := RUnlock in
      Ret w
  end.

Definition reset (w : ResponseWriter) (r : Request) : Prog ResponseWriter :=
  let* _ := Lock in
  let* _ := MapMake in
  let* _ := Unlock in
  Ret w.

(** [trace] calls [t.mu.Unlock()] right after [t.mu.Lock()] (the call is not
    deferred), so everything below runs with the mutex released.  The buffer
    handed to [trace.Start] is filled by the runtime; its contents are read
    off when [trace.Stop] returns. *)
Definition trace (w : ResponseWriter) (r : Request) : Prog ResponseWriter :=
  let* _ := Lock in
  let* _ := Unlock in
  randHex (fun id =>
    let w := RW.HeaderSet w xTReqsID id in
    let* err := TraceStart in
    match err with
    | Some e =>
        let w := RW.HeaderSet w "Content-Type" "text/plain; charset=utf-8" in
        let w := RW.WriteHeader w StatusInternalServerError in
        let w := RW.WriteString w ("Could not enable tracing: " ++ e ++ newline) in
        Ret w
    | None =>
        let* w := Serve w r in
        let* buf := TraceStop in
        let* _ := MapStore id buf in
        Ret w
    end).

(** The four cases of the switch of [ServeHTTP]. *)
Inductive Action := ActPass | ActRead | ActReset | ActTrace.

(** [switch strings.ToLower(action)]: the case the lowered action selects. *)
Definition classify (action : string) : Action :=
  let a := Strings.ToLower action in
  if String.eqb a "read" then ActRead
  else if String.eqb a "reset" then ActReset
  else if String.eqb a "trace" then ActTrace
  else ActPass.

Definition ServeHTTP (t : Tracer) (w : ResponseWriter) (r : Request)
  : Prog ResponseWriter :=
  let sc := scrubHeader (r_header r) in
  let r := with_header r (sc_hdr sc) in
  let key := sc_key sc in
  let id := sc_id sc in
  let action := if negb (String.eqb key (Key t)) then EmptyString else sc_action sc in
  match classify action with
  | ActPass => passthrough w r
  | ActRead => read id w r
  | ActReset => reset w r
  | ActTrace => trace w r
  end.

(** ** Requests running side by side *)

Inductive ThreadState :=
| Running (p : Prog ResponseWriter)
| Finished (w : ResponseWriter)
| Crashed (msg : string).

Record Thread := MkThread {
  th_env : Env;
  th_state : ThreadState
}.

Record Config := MkConfig {
  cfg_state : State;
  cfg_threads : list Thread
}.

(** Request [i] runs its next operation; [None] when there is no such
    request, when it is over, or when it waits for the mutex. *)
Definition step (t : Tracer) (i : nat) (c : Config) : option Config :=
  match cfg_threads c !! i with
  | Some (MkThread env (Running p)) =>
      match p with
      | Ret w =>
          Some (MkConfig (cfg_state c)
                         (<[i := MkThread env (Finished w)]> (cfg_threads c)))
      | Panic msg =>
          Some (MkConfig (cfg_state c)
                         (<[i := MkThread env (Crashed msg)]> (cfg_threads c)))
      | Do cmd k =>
          match interp t env i cmd (cfg_state c) with
          | Ok b s' =>
              Some (MkConfig s' (<[i := MkThread env (Running (k b))]> (cfg_threads c)))
          | Panicked msg s' =>
              Some (MkConfig s' (<[i := MkThread env (Crashed msg)]> (cfg_threads c)))
          | Blocked => None
          end
      end
  | _ => None
  end.

(** The requests take turns as the schedule says. *)
Fixpoint run (t : Tracer) (sched : list nat) (c : Config) : option Config :=
  match sched with
  | [] => Some c
  | i :: sched' =>
      match step t i c with
      | Some c' => run t sched' c'
      | None => None
      end
  end.

(** The requests are accepted by the server, each with a response writer of
    its own. *)
Definition spawn (t : Tracer) (s : State) (reqs : list (Env * Request)) : Config :=
  MkConfig s
    (map (fun er => MkThread (fst er) (Running (ServeHTTP t RW.new (snd er))))
         reqs).

(** ** Vocabulary of the statements *)

(** The value of a control header while [scrubHeader] runs, given what the
    loop has found so far: the first value stored under the name, unless a
    value was found before. *)
Definition pick (sofar : string) (h : Header) (name : string) : string :=
  if String.eqb sofar EmptyString then Hdr.Get h name else sofar.

(** The control values a request carries. *)
Definition req_key (r : Request) : string := Hdr.Get (r_header r) xTReqsKey.
Definition req_action (r : Request) : string := Hdr.Get (r_header r) xTReqsAction.
Definition req_id (r : Request) : string := Hdr.Get (r_header r) xTReqsID.

(** The request as the handlers get it. *)
Definition scrubbed (r : Request) : Request := with_header r ∅.

(** A response writer nothing was written to yet. *)
Definition unwritten (w : ResponseWriter) : Prop :=
  rw_wroteHeader w = false /\ rw_body w = [].

(** The mutex is held by nobody. *)
Definition mutex_free (s : State) : Prop := mu s = MkMu false 0.

(** The state a run leaves, when the request did not wait for ever. *)
Definition state_of {A : Type} (res : Res A) : option State :=
  match res with
  | Ok _ s => Some s
  | Panicked _ s => Some s
  | Blocked => None
  end.

(** The session stored under an id. *)
Definition session (s : State) (id : string) : option (list byte) :=
  match traces s with
  | Some m => m !! id
  | None => None
  end.

(** The states of a tracer that serves its requests one after the other,
    from its construction on. *)
Inductive reachable (t : Tracer) : State -> Prop :=
| reach_new : reachable t newState
| reach_serve s env tid w r s' :
    reachable t s ->
    state_of (exec t env tid (ServeHTTP t w r) s) = Some s' ->
    reachable t s'.

(** The request a command hands to the downstream handler. *)
Definition cmd_request {B : Type} (c : Cmd B) : option Request :=
  match c with
  | Serve _ r => Some r
  | _ => None
  end.

(** Every call of the downstream handler a program can make is for a
    request with property [P]. *)
Inductive serves (P : Request -> Prop) {A : Type} : Prog A -> Prop :=
| serves_ret a : serves P (Ret a)
| serves_panic msg : serves P (Panic msg)
| serves_do {B : Type} (c : Cmd B) (k : B -> Prog A) :
    (forall r, cmd_request c = Some r -> P r) ->
    (forall b, serves P (k b)) ->
    serves P (Do c k).

(** The id a trace action generates from the bytes of the random source. *)
Definition new_id (env : Env) : string :=
  Hex.EncodeToString (take 32 (rand_bytes env)).

(** Who did what, oldest operation first. *)
Definition timeline (s : State) : list (nat * Event) :=
  map (fun e => (le_tid e, le_ev e)) (rev (history s)).

(** The history after the operations of [trace] up to and with the start of
    the capture. *)
Definition trace_prefix (tid : nat) (s : State) (ok : bool) : list LogEntry :=
  MkEntry tid (EvTraceStart ok) (mu s)
  :: MkEntry tid EvRand (mu s)
  :: MkEntry tid EvUnlock (MkMu true 0)
  :: MkEntry tid EvLock (mu s) :: history s.

(** The stores into the registry a history has, each with the state of the
    mutex at the store. *)
Definition stores (s : State) : list LogEntry :=
  List.filter (fun e => match le_ev e with EvStore _ => true | _ => false end)
              (history s).

(** The operations that ran while a writer held the mutex. *)
Definition under_lock (s : State) : list LogEntry :=
  List.filter (fun e => writer (le_mu e)) (history s).

(** The response of a request that has returned. *)
Definition th_done (th : Thread) : option ResponseWriter :=
  match th_state th with
  | Finished w => Some w
  | _ => None
  end.

(** What is seen of requests running side by side: who did what so far,
    and the responses of the requests that have returned. *)
Definition observe (c : Config) : list (nat * Event) * list (option ResponseWriter) :=
  (timeline (cfg_state c), map th_done (cfg_threads c)).

(** *** A tracer and requests to run the handlers on *)

Module Demo.

Definition hello : ResponseWriter -> Request -> ResponseWriter :=
  fun w _ => RW.WriteString w "hello".

Definition tracer : Tracer := MkTracer hello "s3cr3t".

Definition request (action id : string) : Request :=
  MkRequest "GET" "/pi"
    (<[xTReqsKey := ["s3cr3t"]]>
       (<[xTReqsAction := [action]]>
          (<[xTReqsID := [id]]> (<["Accept" := ["*/*"]]> ∅))))
    [].

Definition trace_req : Request := request "trace" EmptyString.
Definition reset_req : Request := request "reset" EmptyString.

(** A request of the ordinary traffic. *)
Definition plain : Request :=
  MkRequest "GET" "/pi" (<["Accept" := ["*/*"]]> ∅) [].

Definition env : Env :=
  MkEnv (repeat "*"%byte 32) None ["t"%byte; "r"%byte; "c"%byte].

Definition env_fail : Env :=
  MkEnv (repeat "*"%byte 32) (Some "tracing is already enabled") [].

Definition id : string :=
  "2a2a2a2a2a2a2a2a2a2a2a2a2a2a2a2a2a2a2a2a2a2a2a2a2a2a2a2a2a2a2a2a".

Definition read_req : Request := request "read" id.

(** A request with a key that is not the tracer's. *)
Definition intruder : Request :=
  MkRequest "GET" "/pi"
    (<[xTReqsKey := ["guess"]]> (<[xTReqsAction := ["trace"]]> ∅)) [].

(** A tracer with a free mutex and an empty registry. *)
Definition ready : State := MkState (MkMu false 0) (Some ∅) [].

Definition after (res : Res ResponseWriter) : State :=
  match state_of res with
  | Some s => s
  | None => newState
  end.

(** A new tracer that has served a reset, and then a trace. *)
Definition was_reset : State :=
  after (exec tracer env 0 (ServeHTTP tracer RW.new reset_req) newState).

Definition traced : State :=
  after (exec tracer env 1 (ServeHTTP tracer RW.new trace_req) was_reset).

(** A trace and a request of the ordinary traffic, accepted together. *)
Definition race : Config :=
  spawn tracer ready [(env, trace_req); (env, plain)].

(** A trace and a read, accepted together. *)
Definition trace_and_read : Config :=
  spawn tracer ready [(env, trace_req); (env, read_req)].

End Demo.

(** ** Further vocabulary *)

(** [encoding/hex]: the value of a hexadecimal digit, and the bytes a string
    of such digits stands for. *)
Module Unhex.

Definition fromHexChar (c : ascii) : option nat :=
  let n := nat_of_ascii c in
  if (48 <=? n)%nat && (n <=? 57)%nat then Some (n - 48)
  else if (97 <=? n)%nat && (n <=? 102)%nat then Some (n - 97 + 10)
  else if (65 <=? n)%nat && (n <=? 70)%nat then Some (n - 65 + 10)
  else None.

Fixpoint DecodeString (s : string) : option (list byte) :=
  match s with
  | EmptyString => Some []
  | String _ EmptyString => None
  | String a (String b s') =>
      match fromHexChar a, fromHexChar b, DecodeString s' with
      | Some h, Some l, Some rest =>
          match Byte.of_N (N.of_nat (16 * h + l)) with
          | Some x => Some (x :: rest)
          | None => None
          end
      | _, _, _ => None
      end
  end.

(** A digit of the lower-case alphabet [0-9a-f]. *)
Definition lower_hex (c : ascii) : bool :=
  let n := nat_of_ascii c in
  ((48 <=? n)%nat && (n <=? 57)%nat) || ((97 <=? n)%nat && (n <=? 102)%nat).

End Unhex.

(** The case of the switch a request is served by: the action it asks for,
    when its key is the tracer's. *)
Definition action_of (t : Tracer) (r : Request) : Action :=
  classify (if negb (String.eqb (req_key r) (Key t)) then EmptyString
            else req_action r).

(** *** The protocol of the mutex *)

(** What a request holds of the mutex at a point of its run. *)
Inductive Mode := Free | Shared | Excl.

#[global] Instance Mode_eq_dec : EqDecision Mode.
Proof. solve_decision. Defined.

(** What a command asks of the mode [m] it runs in, and the mode [K] the
    rest of the program goes on in.  The lock operations move between the
    modes; the lookup is made in shared mode and the map is replaced in
    exclusive mode; the store is made with nothing held. *)
Definition cmd_phase {B : Type} (c : Cmd B) (m : Mode)
    (K : B -> Mode -> Prop) : Prop :=
  match c in Cmd B return (B -> Mode -> Prop) -> Prop with
  | Lock => fun K => m = Free /\ K tt Excl
  | Unlock => fun K => m = Excl /\ K tt Free
  | RLock => fun K => m = Free /\ K tt Shared
  | RUnlock => fun K => m = Shared /\ K tt Free
  | MapLookup _ => fun K => m = Shared /\ forall b, K b Shared
  | MapMake => fun K => m = Excl /\ K tt Excl
  | MapStore _ _ => fun K => m = Free /\ K tt Free
  | ReadFull _ => fun K => forall b, K b m
  | TraceStart => fun K => forall b, K b m
  | TraceStop => fun K => forall b, K b m
  | Serve _ _ => fun K => forall b, K b m
  end K.

(** The program [p], begun in mode [m], follows the protocol to its end:
    it returns, or panics, with nothing held, and it panics by itself only
    for want of random bytes. *)
Fixpoint phase {A : Type} (m : Mode) (p : Prog A) : Prop :=
  match p with
  | Ret _ => m = Free
  | Panic msg => m = Free /\ msg = "unexpected EOF"
  | Do c k => cmd_phase c m (fun b m' => phase m' (k b))
  end.

Definition thread_mode (th : Thread) (m : Mode) : Prop :=
  match th_state th with
  | Running p => phase m p
  | Finished _ => m = Free
  | Crashed msg =>
      m = Free /\
      (msg = "assignment to entry in nil map" \/ msg = "unexpected EOF")
  end.

(** How many of the requests are in mode [x]. *)
Fixpoint holders (x : Mode) (ms : list Mode) : nat :=
  match ms with
  | [] => 0
  | m :: ms' => (if decide (m = x) then 1 else 0) + holders x ms'
  end.

(** The mutex counts the requests in shared mode, and has a writer exactly
    when one request is in exclusive mode and none in shared mode. *)
Definition mutex_agrees (m : RWMutex) (ms : list Mode) : Prop :=
  readers m = holders Shared ms /\
  holders Excl ms = (if writer m then 1 else 0) /\
  (writer m = true -> holders Shared ms = 0).

Definition protocol (c : Config) : Prop :=
  exists ms,
    Forall2 thread_mode (cfg_threads c) ms /\
    mutex_agrees (mu (cfg_state c)) ms.

(** Every replacement of the registry in the history ran with the writer
    holding the mutex and no reader, and every lookup with a reader and no
    writer. *)
Definition disciplined (s : State) : Prop :=
  forall e, e ∈ history s ->
    (le_ev e = EvMake -> le_mu e = MkMu true 0) /\
    (forall id, le_ev e = EvLookup id ->
       writer (le_mu e) = false /\ 1 <= readers (le_mu e)).

(** The request has returned or panicked. *)
Definition over (th : Thread) : Prop :=
  match th_state th with
  | Running _ => False
  | _ => True
  end.

(** A program of the shared tier: it takes and gives back the shared lock,
    calls the downstream handler and looks the registry up, and does
    nothing else. *)
Definition shared_cmd {B : Type} (c : Cmd B) : Prop :=
  match c with
  | RLock | RUnlock | Serve _ _ | MapLookup _ => True
  | _ => False
  end.

Fixpoint shared_tier {A : Type} (p : Prog A) : Prop :=
  match p with
  | Ret _ => True
  | Panic _ => True
  | Do c k => shared_cmd c /\ forall b, shared_tier (k b)
  end.

(** The requests that have not returned are programs of the shared tier. *)
Definition shared_thread (th : Thread) : Prop :=
  match th_state th with
  | Running p => shared_tier p
  | _ => True
  end.

(** *** The command [treqs] *)

(** What the server sends when the handler has returned: a handler that
    wrote nothing gets the status 200. *)
Definition finish (w : ResponseWriter) : ResponseWriter :=
  RW.WriteHeader w StatusOK.

(** [http.Response], as far as the command reads it. *)
Record Response := MkResponse {
  res_status : nat;
  res_header : Header;
  res_body : list byte
}.

(** [bodyAllowedForStatus] of net/http: the statuses 1xx, 204 and 304 have
    no body. *)
Definition bodyAllowedForStatus (status : nat) : bool :=
  if (100 <=? status)%nat && (status <=? 199)%nat then false
  else if (status =? 204)%nat then false
  else if (status =? 304)%nat then false
  else true.

(** The response the server sends for what the handler has left in the
    response writer: the body is left out when the request was a HEAD and
    when the status has no body. *)
Definition response_of (method : string) (w : ResponseWriter) : Response :=
  MkResponse (rw_status (finish w)) (rw_sent (finish w))
    (if String.eqb method "HEAD" || negb (bodyAllowedForStatus (rw_status (finish w)))
     then [] else rw_body (finish w)).

(** [req.Header.Set(k, v)]. *)
Definition set_header (r : Request) (k v : string) : Request :=
  with_header r (Hdr.Set_ (r_header r) k v).

(** The flags [-key], [-method] and [-url]. *)
Record Flags := MkFlags {
  flag_key : string;
  flag_method : string;
  flag_url : string
}.

Definition default_flags : Flags := MkFlags "treqs" "GET" EmptyString.

(** How the command ends: it returns, having written to the standard
    output, or [log.Fatal] ends it with a message. *)
Inductive Exit :=
| Exited (stdout : list byte)
| Fatal (msg : string).

(** The type of [http.DefaultClient.Do] and of one exchange with a server:
    from the request and the state of the other side, an error or a
    response, and the state after; [None] when no answer ever comes. *)
Definition Transport (St : Type) : Type :=
  Request -> St -> option ((string + Response) * St).

(** [main] of the command, given [http.NewRequest] (which rejects a method
    or a URL it cannot parse) and the transport.  The body of the second
    response is copied to the standard output, which is taken to accept
    it. *)
Definition main {St : Type} (NewRequest : string -> string -> string + Request)
    (Do : Transport St) (fl : Flags) (st : St) : option (Exit * St) :=
  if String.eqb (flag_url fl) EmptyString then
    Some (Fatal "missing -url argument", st)
  else
    match NewRequest (flag_method fl) (flag_url fl) with
    | inl err => Some (Fatal err, st)
    | inr req =>
        let req := set_header req "X-Treqs-Action" "trace" in
        let req := set_header req "X-Treqs-Key" (flag_key fl) in
        match Do req st with
        | None => None
        | Some (inl err, st1) => Some (Fatal err, st1)
        | Some (inr res, st1) =>
            let traceID := Hdr.Get (res_header res) "X-Treqs-Id" in
            if String.eqb traceID EmptyString then
              Some (Fatal "trace request failed, X-Treqs-Id header missing in response",
                    st1)
            else
              match NewRequest (flag_method fl) (flag_url fl) with
              | inl err => Some (Fatal err, st1)
              | inr req =>
                  let req := set_header req "X-Treqs-Action" "read" in
                  let req := set_header req "X-Treqs-Id" traceID in
                  let req := set_header req "X-Treqs-Key" (flag_key fl) in
                  match Do req st1 with
                  | None => None
                  | Some (inl err, st2) => Some (Fatal err, st2)
                  | Some (inr res, st2) => Some (Exited (res_body res), st2)
                  end
              end
        end
    end.

(** One exchange with a server that hands every request to the tracer, one
    request after the other ([RoundTrip] of the transport: the request is
    sent, the response is received, no redirect is followed).  The state is
    the state of the tracer and the number of requests served so far;
    request [n] meets the outside world [envs n].  The response is sent
    when the handler has returned; when the handler panics the connection
    is closed and the exchange ends in an error. *)
Definition RoundTrip (t : Tracer) (envs : nat -> Env) : Transport (State * nat) :=
  fun r st =>
    match exec t (envs (snd st)) (snd st) (ServeHTTP t RW.new r) (fst st) with
    | Ok w s' => Some (inr (response_of (r_method r) w), (s', S (snd st)))
    | Panicked msg s' => Some (inl "EOF", (s', S (snd st)))
    | Blocked => None
    end.

(** The statuses on which the client may go on to another request. *)
Definition may_redirect (status : nat) : bool :=
  existsb (Nat.eqb status) [301; 302; 303; 307; 308].

(** What is taken of [http.DefaultClient.Do]: when the exchange gives a
    response and its status is none of the redirects, [Do] returns that
    response, and the other side is as the exchange has left it.  Nothing
    is said of [Do] on a redirect or on an error of the exchange. *)
Definition client_of {St : Type} (Do rt : Transport St) : Prop :=
  forall r st res st',
    rt r st = Some (inr res, st') ->
    may_redirect (res_status res) = false ->
    Do r st = Some (inr res, st').

(** The downstream handler leaves the id header of the response alone:
    what is sent under that name is what was set before the handler ran. *)
Definition keeps_id_header (t : Tracer) : Prop :=
  forall w r,
    rw_wroteHeader w = false ->
    rw_sent (finish (Handler t w r)) !! xTReqsID = rw_header w !! xTReqsID.

(** The downstream handler answers with a status of success. *)
Definition answers_2xx (t : Tracer) : Prop :=
  forall w r,
    rw_wroteHeader w = false ->
    200 <= rw_status (finish (Handler t w r)) <= 299.

(** *** Scenes to run the statements on *)

Module Scenes.

Definition outcome (sched : list nat) (c : Config) : Config :=
  match run Demo.tracer sched c with
  | Some c' => c'
  | None => c
  end.

(** A reset and a read, accepted together. *)
Definition reset_and_read : Config :=
  spawn Demo.tracer Demo.ready
        [(Demo.env, Demo.reset_req); (Demo.env, Demo.read_req)].


(** Two requests of the ordinary traffic and a read, accepted together. *)
Definition traffic : list (Env * Request) :=
  [(Demo.env, Demo.plain); (Demo.env, Demo.intruder); (Demo.env, Demo.read_req)].

Definition thread (i : nat) (c : Config) : Thread :=
  match cfg_threads c !! i with
  | Some th => th
  | None => MkThread Demo.env (Crashed EmptyString)
  end.

(** [http.NewRequest] for a method and a URL it accepts. *)
Definition NewRequest (method url : string) : string + Request :=
  inr (MkRequest method url ∅ []).

Definition flags : Flags := MkFlags "s3cr3t" "GET" "http://localhost/pi".

Definition envs (n : nat) : Env := Demo.env.

Definition envs_fail (n : nat) : Env := Demo.env_fail.

End Scenes.

(** * Properties *)

(** ** The request classifier *)

Section Classifier.

Lemma canonical_key : Hdr.CanonicalMIMEHeaderKey xTReqsKey = xTReqsKey.
Proof. reflexivity. Qed.

Lemma canonical_action : Hdr.CanonicalMIMEHeaderKey xTReqsAction = xTReqsAction.
Proof. reflexivity. Qed.

Lemma canonical_id : Hdr.CanonicalMIMEHeaderKey xTReqsID = xTReqsID.
Proof. reflexivity. Qed.

Lemma Get_empty k : Hdr.Get ∅ k = EmptyString.
Proof. unfold Hdr.Get. by rewrite lookup_empty. Qed.

Lemma Get_delete (h : Header) k name :
  Hdr.CanonicalMIMEHeaderKey name = name ->
  Hdr.Get (delete k h) name = if String.eqb k name then EmptyString else Hdr.Get h name.
Proof.
  intros Hc. unfold Hdr.Get. rewrite Hc.
  destruct (String.eqb_spec k name) as [->|Hne].
  - by rewrite lookup_delete_eq.
  - by rewrite lookup_delete_ne.
Qed.

Lemma or_else_empty (s : string) :
  (if String.eqb s EmptyString then EmptyString else s) = s.
Proof. by destruct (String.eqb_spec s EmptyString) as [->|]. Qed.

Lemma pick_delete sofar (h : Header) k name :
  Hdr.CanonicalMIMEHeaderKey name = name ->
  k <> name ->
  pick sofar (delete k h) name = pick sofar h name.
Proof.
  intros Hc Hne. unfold pick. rewrite Get_delete by done.
  by destruct (String.eqb_spec k name).
Qed.

Lemma pick_found sofar (h : Header) name :
  Hdr.CanonicalMIMEHeaderKey name = name ->
  pick (pick sofar h name) (delete name h) name = pick sofar h name.
Proof.
  intros Hc. unfold pick at 1. rewrite Get_delete by done.
  rewrite String.eqb_refl. apply or_else_empty.
Qed.

Lemma scrubIter_present k st v :
  sc_hdr st !! k = Some v ->
  scrubIter k st =
    MkScrub (if String.eqb k xTReqsKey then pick (sc_key st) (sc_hdr st) k
             else sc_key st)
            (if String.eqb k xTReqsAction then pick (sc_action st) (sc_hdr st) k
             else sc_action st)
            (if String.eqb k xTReqsID then pick (sc_id st) (sc_hdr st) k
             else sc_id st)
            (delete k (sc_hdr st)).
Proof.
  intros Hk. unfold scrubIter, pick. rewrite Hk.
  destruct (String.eqb_spec k xTReqsKey) as [->|HK];
    [by destruct (String.eqb (sc_key st) EmptyString)|].
  destruct (String.eqb_spec k xTReqsAction) as [->|HA];
    [by destruct (String.eqb (sc_action st) EmptyString)|].
  destruct (String.eqb_spec k xTReqsID) as [->|HI];
    [by destruct (String.eqb (sc_id st) EmptyString)|].
  done.
Qed.

(** The loop of [scrubHeader] run over any enumeration of the names of the
    map: each control value is the one found before the loop, or else the
    first value stored under the control name, and the map ends empty. *)
Lemma scrubRange_enum ks : forall st,
  NoDup ks ->
  (forall k, k ∈ ks <-> is_Some (sc_hdr st !! k)) ->
  scrubRange ks st =
    MkScrub (pick (sc_key st) (sc_hdr st) xTReqsKey)
            (pick (sc_action st) (sc_hdr st) xTReqsAction)
            (pick (sc_id st) (sc_hdr st) xTReqsID)
            ∅.
Proof.
  induction ks as [|k ks IH]; intros st Hnd Hdom.
  - assert (sc_hdr st = ∅) as Hemp.
    { apply map_eq. intros k. rewrite lookup_empty.
      destruct (sc_hdr st !! k) eqn:E; [|done].
      exfalso. eapply not_elem_of_nil, Hdom. by rewrite E. }
    destruct st as [a b c h]. simpl in *. subst h.
    unfold pick. rewrite !Get_empty, !or_else_empty. done.
  - apply NoDup_cons in Hnd as [Hk Hnd].
    destruct (proj1 (Hdom k)) as [v Hv]; [by left|].
    simpl. rewrite (scrubIter_present _ _ _ Hv).
    rewrite IH; [|done|]; simpl.
    + f_equal.
      * destruct (String.eqb_spec k xTReqsKey) as [->|HK].
        -- by apply pick_found.
        -- by apply pick_delete.
      * destruct (String.eqb_spec k xTReqsAction) as [->|HA].
        -- by apply pick_found.
        -- by apply pick_delete.
      * destruct (String.eqb_spec k xTReqsID) as [->|HI].
        -- by apply pick_found.
        -- by apply pick_delete.
    + intros k'. rewrite lookup_delete. case_decide as Hkk.
      * subst k'. split; [done|]. by intros [? ?].
      * rewrite <- Hdom, elem_of_cons. split; [by right|].
        by intros [->|?].
Qed.

Lemma range_names (hdr : Header) k :
  k ∈ (map_to_list hdr).*1 <-> is_Some (hdr !! k).
Proof.
  rewrite list_elem_of_fmap. split.
  - intros [[k' v] [-> Hin]]. apply elem_of_map_to_list in Hin. by eexists.
  - intros [v Hv]. exists (k, v). split; [done|]. by apply elem_of_map_to_list.
Qed.

Lemma scrubHeader_spec (hdr : Header) :
  scrubHeader hdr =
    MkScrub (Hdr.Get hdr xTReqsKey) (Hdr.Get hdr xTReqsAction)
            (Hdr.Get hdr xTReqsID) ∅.
Proof.
  unfold scrubHeader. rewrite scrubRange_enum; simpl; [done| |].
  - apply NoDup_fst_map_to_list.
  - apply range_names.
Qed.

(** The order in which [range] produces the names does not matter. *)
Lemma scrubRange_any_order (hdr : Header) ks :
  NoDup ks ->
  (forall k, k ∈ ks <-> is_Some (hdr !! k)) ->
  scrubRange ks (MkScrub EmptyString EmptyString EmptyString hdr) = scrubHeader hdr.
Proof.
  intros Hnd Hdom. rewrite scrubHeader_spec.
  by rewrite scrubRange_enum.
Qed.

End Classifier.

(** ** The dispatch of [ServeHTTP] *)

Section Dispatch.

Lemma eq_fold_ToLower s1 : forall s2,
  Strings.eq_fold s1 s2 = String.eqb (Strings.ToLower s1) (Strings.ToLower s2).
Proof.
  induction s1 as [|c1 r1 IH]; intros [|c2 r2]; simpl; try done.
  by rewrite IH.
Qed.

(** The switch on the lowered action, as a comparison up to case. *)
Lemma classify_eq_fold a :
  classify a =
    if Strings.eq_fold a "read" then ActRead
    else if Strings.eq_fold a "reset" then ActReset
    else if Strings.eq_fold a "trace" then ActTrace
    else ActPass.
Proof. unfold classify. by rewrite !eq_fold_ToLower. Qed.

Lemma eq_fold_words a :
  (Strings.eq_fold a "trace" = true ->
   Strings.eq_fold a "read" = false /\ Strings.eq_fold a "reset" = false) /\
  (Strings.eq_fold a "read" = true -> Strings.eq_fold a "reset" = false).
Proof.
  rewrite !eq_fold_ToLower. simpl. split.
  - intros H%String.eqb_eq. by rewrite H.
  - intros H%String.eqb_eq. by rewrite H.
Qed.

Lemma classify_trace a : Strings.eq_fold a "trace" = true -> classify a = ActTrace.
Proof.
  intros H. rewrite classify_eq_fold, H.
  by destruct (proj1 (eq_fold_words a) H) as [-> ->].
Qed.

Lemma classify_read a : Strings.eq_fold a "read" = true -> classify a = ActRead.
Proof. intros H. by rewrite classify_eq_fold, H. Qed.

Lemma classify_reset a : Strings.eq_fold a "reset" = true -> classify a = ActReset.
Proof.
  intros H. rewrite classify_eq_fold, H.
  destruct (Strings.eq_fold a "read") eqn:E; [|done].
  apply (proj2 (eq_fold_words a)) in E. congruence.
Qed.

(** [ServeHTTP] with the loop of [scrubHeader] replaced by its result. *)
Lemma ServeHTTP_unfold t w r :
  ServeHTTP t w r =
    match classify (if negb (String.eqb (req_key r) (Key t)) then EmptyString
                    else req_action r) with
    | ActPass => passthrough w (scrubbed r)
    | ActRead => read (req_id r) w (scrubbed r)
    | ActReset => reset w (scrubbed r)
    | ActTrace => trace w (scrubbed r)
    end.
Proof. unfold ServeHTTP. by rewrite scrubHeader_spec. Qed.

Lemma ServeHTTP_authorized t w r :
  req_key r = Key t ->
  ServeHTTP t w r =
    match classify (req_action r) with
    | ActPass => passthrough w (scrubbed r)
    | ActRead => read (req_id r) w (scrubbed r)
    | ActReset => reset w (scrubbed r)
    | ActTrace => trace w (scrubbed r)
    end.
Proof. intros Hk. rewrite ServeHTTP_unfold, Hk, String.eqb_refl. done. Qed.

Lemma ServeHTTP_unauthorized t w r :
  req_key r <> Key t ->
  ServeHTTP t w r = passthrough w (scrubbed r).
Proof.
  intros Hk. rewrite ServeHTTP_unfold.
  by destruct (String.eqb_spec (req_key r) (Key t)).
Qed.

Lemma exec_passthrough t env tid w r s :
  writer (mu s) = false ->
  exec t env tid (passthrough w r) s =
    Ok (Handler t w r)
       (MkState (mu s) (traces s)
          (MkEntry tid EvRUnlock (MkMu false (S (readers (mu s))))
           :: MkEntry tid (EvServe r) (MkMu false (S (readers (mu s))))
           :: MkEntry tid EvRLock (mu s) :: history s)).
Proof.
  intros Hw. destruct s as [[wr n] m h]. simpl in *. subst wr. reflexivity.
Qed.

End Dispatch.

(** ** The handlers, run alone *)

Section Runs.

Variable t : Tracer.
Variable env : Env.
Variable tid : nat.

Local Arguments Nat.leb : simpl never.
Local Arguments take : simpl never.

Lemma exec_read_found id w r s buf :
  writer (mu s) = false ->
  session s id = Some buf ->
  exec t env tid (read id w r) s =
    Ok (RW.Write (RW.HeaderSet w "Content-Type" "application/octet-stream") buf)
       (MkState (mu s) (traces s)
          (MkEntry tid EvRUnlock (MkMu false (S (readers (mu s))))
           :: MkEntry tid (EvLookup id) (MkMu false (S (readers (mu s))))
           :: MkEntry tid EvRLock (mu s) :: history s)).
Proof.
  intros Hw Hs. destruct s as [[wr n] m h]. unfold session in Hs.
  simpl in *. subst wr. unfold read. simpl. rewrite Hs. reflexivity.
Qed.

Lemma exec_read_missing id w r s :
  writer (mu s) = false ->
  session s id = None ->
  exec t env tid (read id w r) s =
    Ok (http_NotFound w r)
       (MkState (mu s) (traces s)
          (MkEntry tid EvRUnlock (MkMu false (S (readers (mu s))))
           :: MkEntry tid (EvLookup id) (MkMu false (S (readers (mu s))))
           :: MkEntry tid EvRLock (mu s) :: history s)).
Proof.
  intros Hw Hs. destruct s as [[wr n] m h]. unfold session in Hs.
  simpl in *. subst wr. unfold read. simpl. rewrite Hs. reflexivity.
Qed.

Lemma exec_reset w r s :
  mutex_free s ->
  exec t env tid (reset w r) s =
    Ok w (MkState (mu s) (Some ∅)
            (MkEntry tid EvUnlock (MkMu true 0)
             :: MkEntry tid EvMake (MkMu true 0)
             :: MkEntry tid EvLock (mu s) :: history s)).
Proof.
  unfold mutex_free. intros Hm. destruct s as [m tr h]. simpl in *. subst m.
  unfold reset. reflexivity.
Qed.

Lemma ReadFull_enough :
  32 <= length (rand_bytes env) ->
  (32 <=? length (rand_bytes env))%nat = true.
Proof. intros H. by apply Nat.leb_le. Qed.

Lemma exec_trace_fail w r s e :
  mutex_free s ->
  32 <= length (rand_bytes env) ->
  start_err env = Some e ->
  exec t env tid (trace w r) s =
    Ok (RW.WriteString
          (RW.WriteHeader
             (RW.HeaderSet (RW.HeaderSet w xTReqsID (new_id env))
                           "Content-Type" "text/plain; charset=utf-8")
             StatusInternalServerError)
          ("Could not enable tracing: " ++ e ++ newline))
       (MkState (mu s) (traces s) (trace_prefix tid s false)).
Proof.
  unfold mutex_free. intros Hm Hr He. destruct s as [m tr h]. simpl in *. subst m.
  unfold trace_prefix, trace, randHex, new_id. simpl.
  rewrite (ReadFull_enough Hr). simpl. rewrite He. reflexivity.
Qed.

Lemma exec_trace_stored w r s m :
  mutex_free s ->
  32 <= length (rand_bytes env) ->
  start_err env = None ->
  traces s = Some m ->
  exec t env tid (trace w r) s =
    Ok (Handler t (RW.HeaderSet w xTReqsID (new_id env)) r)
       (MkState (mu s) (Some (<[new_id env := captured env]> m))
          (MkEntry tid (EvStore (new_id env)) (mu s)
           :: MkEntry tid EvTraceStop (mu s)
           :: MkEntry tid (EvServe r) (mu s)
           :: trace_prefix tid s true)).
Proof.
  unfold mutex_free. intros Hm Hr He Ht. destruct s as [m' tr h]. simpl in *.
  subst m' tr. unfold trace_prefix, trace, randHex, new_id. simpl.
  rewrite (ReadFull_enough Hr). simpl. rewrite He. reflexivity.
Qed.

Lemma exec_trace_nil w r s :
  mutex_free s ->
  32 <= length (rand_bytes env) ->
  start_err env = None ->
  traces s = None ->
  exec t env tid (trace w r) s =
    Panicked "assignment to entry in nil map"
       (MkState (mu s) None
          (MkEntry tid EvTraceStop (mu s)
           :: MkEntry tid (EvServe r) (mu s)
           :: trace_prefix tid s true)).
Proof.
  unfold mutex_free. intros Hm Hr He Ht. destruct s as [m' tr h]. simpl in *.
  subst m' tr. unfold trace_prefix, trace, randHex, new_id. simpl.
  rewrite (ReadFull_enough Hr). simpl. rewrite He. reflexivity.
Qed.

(** A run adds operations to the history and removes none; the calls of
    the downstream handler it adds are the ones the program can make. *)
Lemma interp_history {B : Type} (c : Cmd B) s :
  forall s', state_of (interp t env tid c s) = Some s' ->
  history s' = history s \/
  exists ev, history s' = MkEntry tid ev (mu s) :: history s /\
             forall r, ev = EvServe r -> cmd_request c = Some r.
Proof.
  intros s'. destruct c; simpl;
    repeat match goal with
           | |- context [if ?b then _ else _] => destruct b
           | |- context [match readers ?m with _ => _ end] => destruct (readers m)
           | |- context [match traces ?m with _ => _ end] => destruct (traces m)
           end; simpl; intros H; try discriminate;
    injection H as <-; simpl; try (by left);
    right; eexists; (split; [reflexivity|]); intros r0 Hr; try discriminate.
  by injection Hr as ->.
Qed.

Lemma exec_serves {A : Type} (P : Request -> Prop) (p : Prog A) :
  serves P p ->
  forall s s', state_of (exec t env tid p s) = Some s' ->
  forall e, e ∈ history s' ->
    e ∈ history s \/ (le_tid e = tid /\ forall r, le_ev e = EvServe r -> P r).
Proof.
  induction 1 as [a|msg|B c k Hc Hk IH]; intros s s' Hs e He; simpl in Hs.
  - injection Hs as <-. by left.
  - injection Hs as <-. by left.
  - destruct (interp t env tid c s) as [b s1|msg s1|] eqn:Hi.
    + pose proof (interp_history c s s1) as Hh. rewrite Hi in Hh.
      specialize (Hh eq_refl).
      destruct (IH b s1 s' Hs e He) as [Hin|Hnew]; [|by right].
      destruct Hh as [Hh|[ev [Hh Hev]]]; rewrite Hh in Hin; [by left|].
      apply elem_of_cons in Hin as [->|Hin]; [|by left].
      right. simpl. split; [done|]. intros r Hr. apply Hc, Hev, Hr.
    + simpl in Hs. injection Hs as <-.
      pose proof (interp_history c s s1) as Hh. rewrite Hi in Hh.
      specialize (Hh eq_refl).
      destruct Hh as [Hh|[ev [Hh Hev]]]; rewrite Hh in He; [by left|].
      apply elem_of_cons in He as [->|Hin]; [|by left].
      right. simpl. split; [done|]. intros r Hr. apply Hc, Hev, Hr.
    + discriminate.
Qed.

End Runs.

Ltac serves_step :=
  first
    [ apply serves_ret
    | apply serves_panic
    | apply serves_do;
      [ let r0 := fresh in let Hr := fresh in
        intros r0 Hr; simpl in Hr; try discriminate Hr;
        injection Hr as <-; reflexivity
      | intro ]
    | match goal with |- serves _ (match ?x with _ => _ end) => destruct x end ].

Lemma serves_ServeHTTP t w r : serves (fun r' => r' = scrubbed r) (ServeHTTP t w r).
Proof.
  rewrite ServeHTTP_unfold.
  destruct (classify _); unfold passthrough, read, reset, trace, randHex;
    repeat serves_step.
Qed.

(** ** What a request leaves behind *)

Section Invariants.

Variable t : Tracer.

Local Arguments Nat.leb : simpl never.
Local Arguments take : simpl never.

Lemma exec_trace_short env tid w r s :
  mutex_free s ->
  length (rand_bytes env) < 32 ->
  exec t env tid (trace w r) s =
    Panicked "unexpected EOF"
      (MkState (mu s) (traces s)
         (MkEntry tid EvRand (mu s)
          :: MkEntry tid EvUnlock (MkMu true 0)
          :: MkEntry tid EvLock (mu s) :: history s)).
Proof.
  unfold mutex_free. intros Hm Hr. destruct s as [m tr h]. simpl in *. subst m.
  unfold trace, randHex. simpl.
  replace (32 <=? length (rand_bytes env))%nat with false; [done|].
  symmetry. apply Nat.leb_gt. lia.
Qed.

(** A request served alone gives the mutex back, and leaves the registry as
    it was, or empty, or with one more session under a fresh id. *)
Lemma ServeHTTP_effect env tid w r s s' :
  mutex_free s ->
  state_of (exec t env tid (ServeHTTP t w r) s) = Some s' ->
  mutex_free s' /\
  (traces s' = traces s \/
   traces s' = Some ∅ \/
   exists m, traces s = Some m /\ 32 <= length (rand_bytes env) /\
             traces s' = Some (<[new_id env := captured env]> m)).
Proof.
  intros Hm. pose proof Hm as Hm'. unfold mutex_free in Hm'.
  assert (writer (mu s) = false) as Hw by (by rewrite Hm').
  rewrite ServeHTTP_unfold. destruct (classify _).
  - rewrite exec_passthrough by done. simpl. intros [= <-]. split; [done|by left].
  - destruct (session s (req_id r)) as [buf|] eqn:Hs.
    + rewrite (exec_read_found _ _ _ _ _ _ _ buf) by done.
      simpl. intros [= <-]. split; [done|by left].
    + rewrite exec_read_missing by done.
      simpl. intros [= <-]. split; [done|by left].
  - rewrite exec_reset by done. simpl. intros [= <-]. split; [done|]. right. by left.
  - destruct (Nat.le_gt_cases 32 (length (rand_bytes env))) as [Hr|Hr].
    + destruct (start_err env) as [e|] eqn:He.
      * rewrite (exec_trace_fail _ _ _ _ _ _ e) by done.
        simpl. intros [= <-]. split; [done|by left].
      * destruct (traces s) as [m|] eqn:Ht.
        -- rewrite (exec_trace_stored _ _ _ _ _ _ m) by done.
           simpl. intros [= <-]. split; [done|]. right. right. by exists m.
        -- rewrite exec_trace_nil by done.
           simpl. intros [= <-]. split; [done|]. by left.
    + rewrite exec_trace_short by done.
      simpl. intros [= <-]. split; [done|by left].
Qed.

Lemma EncodeToString_length b :
  String.length (Hex.EncodeToString b) = 2 * length b.
Proof. induction b as [|x b IH]; simpl; [done|]. rewrite IH. lia. Qed.

Lemma new_id_length env :
  32 <= length (rand_bytes env) -> String.length (new_id env) = 64.
Proof.
  intros H. unfold new_id. rewrite EncodeToString_length, length_take. lia.
Qed.

(** Served one request after the other, the tracer has its mutex free
    between two requests, and every session is stored under an id of 64
    hexadecimal digits. *)
Lemma reachable_inv s :
  reachable t s ->
  mutex_free s /\ forall id buf, session s id = Some buf -> String.length id = 64.
Proof.
  induction 1 as [|s env tid w r s' Hreach [IHm IHs] Hexec].
  - split; [done|]. intros id buf. unfold session. simpl. discriminate.
  - destruct (ServeHTTP_effect _ _ _ _ _ _ IHm Hexec) as [Hm [Ht|[Ht|(m & Hs & Hr & Ht)]]].
    + split; [done|]. intros id buf. unfold session in *. rewrite Ht. apply IHs.
    + split; [done|]. intros id buf. unfold session. rewrite Ht, lookup_empty.
      discriminate.
    + split; [done|]. intros id buf. unfold session in *. rewrite Ht.
      rewrite Hs in IHs. rewrite lookup_insert. case_decide as Hid.
      * intros _. subst id. by apply new_id_length.
      * apply IHs.
Qed.

Lemma reachable_no_empty_id s : reachable t s -> session s EmptyString = None.
Proof.
  intros [_ H]%reachable_inv. destruct (session s EmptyString) as [buf|] eqn:E; [|done].
  apply H in E. discriminate.
Qed.

End Invariants.

(** ** The classifier and the dispatch *)

Lemma timeline_snoc3 s tid e1 e2 e3 m1 m2 m3 :
  map (fun e => (le_tid e, le_ev e))
      (rev (MkEntry tid e3 m3 :: MkEntry tid e2 m2 :: MkEntry tid e1 m1 :: history s)) =
  (timeline s ++ [(tid, e1); (tid, e2); (tid, e3)])%list.
Proof.
  unfold timeline. simpl. rewrite !map_app. simpl. by rewrite <- !app_assoc.
Qed.

(** C5, as the code has it.  A request whose key is not the configured
    [Key] is served by the pass-through case, whatever its action header
    says: the downstream handler gets the request with its method, URL and
    body as they came and with every header removed from its header map,
    under the shared lock; the response is the handler's and nothing else,
    and the registry is left as it was. *)
Theorem C5_wrong_key_is_passthrough t env tid w r s :
  req_key r <> Key t ->
  writer (mu s) = false ->
  ServeHTTP t w r = passthrough w (scrubbed r) /\
  r_method (scrubbed r) = r_method r /\
  r_url (scrubbed r) = r_url r /\
  r_body (scrubbed r) = r_body r /\
  r_header (scrubbed r) = ∅ /\
  exists s',
    exec t env tid (ServeHTTP t w r) s = Ok (Handler t w (scrubbed r)) s' /\
    traces s' = traces s /\
    mu s' = mu s /\
    timeline s' =
      (timeline s ++
       [(tid, EvRLock); (tid, EvServe (scrubbed r)); (tid, EvRUnlock)])%list.
Proof.
  intros Hk Hw. rewrite (ServeHTTP_unauthorized _ _ _ Hk).
  repeat (split; [reflexivity|]).
  eexists. split; [by apply exec_passthrough|]. simpl.
  split; [reflexivity|]. split; [|apply timeline_snoc3].
  destruct (mu s) as [wr n]. simpl in Hw. by subst wr.
Qed.

Lemma C5_wrong_key_witness :
  ServeHTTP Demo.tracer RW.new Demo.intruder =
    passthrough RW.new (scrubbed Demo.intruder) /\
  exists s',
    exec Demo.tracer Demo.env 0 (ServeHTTP Demo.tracer RW.new Demo.intruder) Demo.ready =
      Ok (Demo.hello RW.new (scrubbed Demo.intruder)) s' /\
    traces s' = traces Demo.ready.
Proof.
  assert (req_key Demo.intruder <> Key Demo.tracer) as Hk
    by (vm_compute; discriminate).
  assert (writer (mu Demo.ready) = false) as Hw by reflexivity.
  destruct (C5_wrong_key_is_passthrough Demo.tracer Demo.env 0 RW.new
              Demo.intruder Demo.ready Hk Hw)
    as (Hp & _ & _ & _ & _ & s' & He & Ht & _).
  split; [exact Hp|]. exists s'. split; [exact He|exact Ht].
Defined.

(** C5, as the claim has it, fails: the request below has a key that is not
    the tracer's and an Accept header; it is served by the pass-through
    case, and the request the downstream handler gets is not the request
    as it came: its Accept header is gone. *)
Lemma C5_forwarded_unmodified_counterexample :
  let r := MkRequest "GET" "/pi"
             (<[xTReqsKey := ["guess"]]> (<["Accept" := ["*/*"]]> ∅)) [] in
  req_key r <> Key Demo.tracer /\
  timeline (Demo.after (exec Demo.tracer Demo.env 0
                          (ServeHTTP Demo.tracer RW.new r) Demo.ready)) =
    [(0, EvRLock); (0, EvServe (scrubbed r)); (0, EvRUnlock)] /\
  r_header r !! "Accept" = Some ["*/*"] /\
  r_header (scrubbed r) !! "Accept" = None /\
  scrubbed r <> r.
Proof.
  intros r. split; [vm_compute; intros H; discriminate H|].
  split; [vm_compute; reflexivity|].
  split; [vm_compute; reflexivity|].
  split; [vm_compute; reflexivity|].
  intros H. apply (f_equal (fun x => r_header x !! "Accept")) in H.
  vm_compute in H. discriminate H.
Qed.

(** C9.  With the right key, the action is compared, up to the case of its
    letters, with the three words trace, read and reset, and anything else
    is served by the pass-through case: so the empty action, and so the
    near miss "tracee". *)
Theorem C9_action_dispatch t w r :
  req_key r = Key t ->
  ServeHTTP t w r =
    (if Strings.eq_fold (req_action r) "trace" then trace w (scrubbed r)
     else if Strings.eq_fold (req_action r) "read" then read (req_id r) w (scrubbed r)
     else if Strings.eq_fold (req_action r) "reset" then reset w (scrubbed r)
     else passthrough w (scrubbed r)) /\
  (req_action r = EmptyString -> ServeHTTP t w r = passthrough w (scrubbed r)) /\
  (req_action r = "tracee" -> ServeHTTP t w r = passthrough w (scrubbed r)).
Proof.
  intros Hk. rewrite (ServeHTTP_authorized _ _ _ Hk). split; [|split].
  - destruct (Strings.eq_fold (req_action r) "trace") eqn:Et.
    { by rewrite classify_trace. }
    destruct (Strings.eq_fold (req_action r) "read") eqn:Er.
    { by rewrite classify_read. }
    destruct (Strings.eq_fold (req_action r) "reset") eqn:Es.
    { by rewrite classify_reset. }
    by rewrite classify_eq_fold, Et, Er, Es.
  - by intros ->.
  - by intros ->.
Qed.

Lemma C9_action_dispatch_witness :
  ServeHTTP Demo.tracer RW.new (Demo.request "TrAcE" EmptyString) =
    trace RW.new (scrubbed (Demo.request "TrAcE" EmptyString)) /\
  ServeHTTP Demo.tracer RW.new (Demo.request "tracee" EmptyString) =
    passthrough RW.new (scrubbed (Demo.request "tracee" EmptyString)).
Proof.
  assert (forall a, req_key (Demo.request a EmptyString) = Key Demo.tracer) as Hk
    by (intros a; reflexivity).
  assert (Strings.eq_fold (req_action (Demo.request "TrAcE" EmptyString)) "trace" = true)
    as Ha by (vm_compute; reflexivity).
  assert (req_action (Demo.request "tracee" EmptyString) = "tracee") as Hb
    by (vm_compute; reflexivity).
  split.
  - destruct (C9_action_dispatch Demo.tracer RW.new (Demo.request "TrAcE" EmptyString)
                (Hk "TrAcE")) as [H _].
    rewrite Ha in H. exact H.
  - destruct (C9_action_dispatch Demo.tracer RW.new (Demo.request "tracee" EmptyString)
                (Hk "tracee")) as (_ & _ & H).
    exact (H Hb).
Defined.

(** C10.  [scrubHeader] deletes every name of the header map, not the three
    control names only, in whatever order the loop meets the names: whenever
    [ServeHTTP] calls the downstream handler, the request it hands over has
    an empty header map. *)
Theorem C10_scrub_deletes_every_header t env tid w r s s' :
  state_of (exec t env tid (ServeHTTP t w r) s) = Some s' ->
  sc_hdr (scrubHeader (r_header r)) = ∅ /\
  (forall ks, NoDup ks -> (forall k, k ∈ ks <-> is_Some (r_header r !! k)) ->
     sc_hdr (scrubRange ks
               (MkScrub EmptyString EmptyString EmptyString (r_header r))) = ∅) /\
  forall e r', e ∈ history s' -> le_ev e = EvServe r' ->
    e ∈ history s \/ (r' = scrubbed r /\ r_header r' = ∅).
Proof.
  intros Hs. split; [by rewrite scrubHeader_spec|]. split.
  { intros ks Hnd Hdom. by rewrite scrubRange_any_order, scrubHeader_spec. }
  intros e r' He Hev.
  destruct (exec_serves t env tid _ _ (serves_ServeHTTP t w r) s s' Hs e He)
    as [Hold|[_ Hnew]]; [by left|].
  right. rewrite (Hnew r' Hev). done.
Qed.

Lemma C10_scrub_witness :
  sc_hdr (scrubHeader (r_header Demo.plain)) = ∅ /\
  exists s',
    state_of (exec Demo.tracer Demo.env 0
                (ServeHTTP Demo.tracer RW.new Demo.plain) Demo.ready) = Some s' /\
    forall e r', e ∈ history s' -> le_ev e = EvServe r' -> r_header r' = ∅.
Proof.
  assert (state_of (exec Demo.tracer Demo.env 0
                      (ServeHTTP Demo.tracer RW.new Demo.plain) Demo.ready) =
          Some (Demo.after (exec Demo.tracer Demo.env 0
                      (ServeHTTP Demo.tracer RW.new Demo.plain) Demo.ready))) as Hs
    by (vm_compute; reflexivity).
  destruct (C10_scrub_deletes_every_header _ _ _ _ _ _ _ Hs) as (H1 & _ & H2).
  split; [exact H1|]. eexists. split; [exact Hs|].
  intros e r' He Hev. destruct (H2 e r' He Hev) as [Hold|[_ Hh]]; [|exact Hh].
  destruct (proj1 (elem_of_nil e) Hold).
Defined.

(** ** Responses *)

Section Responses.

Local Arguments Hdr.Set_ : simpl never.
Local Arguments Hdr.Del : simpl never.
Local Arguments list_byte_of_string : simpl never.

Lemma Set_lookup_content_type (h : Header) v :
  Hdr.Set_ h "Content-Type" v !! "Content-Type" = Some [v].
Proof.
  unfold Hdr.Set_.
  change (Hdr.CanonicalMIMEHeaderKey "Content-Type") with "Content-Type".
  apply lookup_insert_eq.
Qed.

Lemma Set_lookup_id (h : Header) id :
  Hdr.Set_ h xTReqsID id !! xTReqsID = Some [id].
Proof.
  unfold Hdr.Set_. rewrite canonical_id. apply lookup_insert_eq.
Qed.

Lemma Set_content_type_lookup_id (h : Header) v :
  Hdr.Set_ h "Content-Type" v !! xTReqsID = h !! xTReqsID.
Proof.
  unfold Hdr.Set_.
  change (Hdr.CanonicalMIMEHeaderKey "Content-Type") with "Content-Type".
  by apply lookup_insert_ne.
Qed.

Lemma read_found_response w buf :
  unwritten w ->
  let w' := RW.Write (RW.HeaderSet w "Content-Type" "application/octet-stream") buf in
  rw_status w' = StatusOK /\
  rw_sent w' !! "Content-Type" = Some ["application/octet-stream"] /\
  rw_body w' = buf.
Proof.
  intros [Hw Hb]. destruct w as [h wr st sent body]. simpl in *. subst wr body.
  unfold RW.Write, RW.WriteHeader, RW.HeaderSet. simpl.
  split; [done|]. split; [apply Set_lookup_content_type|done].
Qed.

Lemma not_found_response w r :
  unwritten w -> rw_status (http_NotFound w r) = StatusNotFound.
Proof.
  intros [Hw Hb]. destruct w as [h wr st sent body]. simpl in *. subst wr body.
  reflexivity.
Qed.

Lemma start_failure_response w id e :
  unwritten w ->
  let w' :=
    RW.WriteString
      (RW.WriteHeader
         (RW.HeaderSet (RW.HeaderSet w xTReqsID id)
                       "Content-Type" "text/plain; charset=utf-8")
         StatusInternalServerError)
      ("Could not enable tracing: " ++ e ++ newline) in
  rw_status w' = StatusInternalServerError /\
  rw_sent w' !! "Content-Type" = Some ["text/plain; charset=utf-8"] /\
  rw_sent w' !! xTReqsID = Some [id] /\
  rw_body w' = list_byte_of_string ("Could not enable tracing: " ++ e ++ newline).
Proof.
  intros [Hw Hb]. destruct w as [h wr st sent body]. simpl in *. subst wr body.
  unfold RW.WriteString, RW.Write, RW.WriteHeader, RW.HeaderSet. simpl.
  split; [done|]. split; [apply Set_lookup_content_type|]. split; [|done].
  rewrite Set_content_type_lookup_id. apply Set_lookup_id.
Qed.

End Responses.

Lemma ServeHTTP_read t w r :
  req_key r = Key t -> Strings.eq_fold (req_action r) "read" = true ->
  ServeHTTP t w r = read (req_id r) w (scrubbed r).
Proof. intros Hk Ha. by rewrite (ServeHTTP_authorized _ _ _ Hk), classify_read. Qed.

Lemma ServeHTTP_reset t w r :
  req_key r = Key t -> Strings.eq_fold (req_action r) "reset" = true ->
  ServeHTTP t w r = reset w (scrubbed r).
Proof. intros Hk Ha. by rewrite (ServeHTTP_authorized _ _ _ Hk), classify_reset. Qed.

Lemma ServeHTTP_trace t w r :
  req_key r = Key t -> Strings.eq_fold (req_action r) "trace" = true ->
  ServeHTTP t w r = trace w (scrubbed r).
Proof. intros Hk Ha. by rewrite (ServeHTTP_authorized _ _ _ Hk), classify_trace. Qed.

Lemma mutex_free_writer s : mutex_free s -> writer (mu s) = false.
Proof. unfold mutex_free. by intros ->. Qed.

(** ** The registry *)

(** C6.  A read with the right key answers 200 with the content type
    application/octet-stream and the stored bytes as the body when the id
    names a stored session, and answers 404 when the id names none, which is
    the case of the empty id; the registry is left as it was. *)
Theorem C6_read_serves_stored_session t env tid w r s :
  reachable t s ->
  req_key r = Key t ->
  Strings.eq_fold (req_action r) "read" = true ->
  unwritten w ->
  exists w' s',
    exec t env tid (ServeHTTP t w r) s = Ok w' s' /\
    traces s' = traces s /\
    match session s (req_id r) with
    | Some buf =>
        rw_status w' = StatusOK /\
        rw_sent w' !! "Content-Type" = Some ["application/octet-stream"] /\
        rw_body w' = buf
    | None => rw_status w' = StatusNotFound
    end /\
    (req_id r = EmptyString -> rw_status w' = StatusNotFound).
Proof.
  intros Hreach Hk Ha Hw.
  pose proof (reachable_no_empty_id _ _ Hreach) as Hempty.
  apply reachable_inv in Hreach as [Hm%mutex_free_writer _].
  rewrite (ServeHTTP_read _ _ _ Hk Ha).
  destruct (session s (req_id r)) as [buf|] eqn:Hs.
  - rewrite (exec_read_found _ _ _ _ _ _ _ buf Hm Hs).
    eexists _, _. split; [reflexivity|]. split; [reflexivity|].
    split; [by apply read_found_response|].
    intros Hid. rewrite Hid, Hempty in Hs. discriminate.
  - rewrite (exec_read_missing _ _ _ _ _ _ _ Hm Hs).
    eexists _, _. split; [reflexivity|]. split; [reflexivity|].
    split; [by apply not_found_response|]. intros _. by apply not_found_response.
Qed.

(** C7.  A trace whose capture does not start answers 500 with a plain-text
    message, never calls the downstream handler, and leaves the registry as
    it was. *)
Theorem C7_capture_start_failure t env tid w r s err :
  req_key r = Key t ->
  Strings.eq_fold (req_action r) "trace" = true ->
  mutex_free s ->
  32 <= length (rand_bytes env) ->
  unwritten w ->
  start_err env = Some err ->
  exists w' s',
    exec t env tid (ServeHTTP t w r) s = Ok w' s' /\
    rw_status w' = StatusInternalServerError /\
    rw_sent w' !! "Content-Type" = Some ["text/plain; charset=utf-8"] /\
    rw_body w' = list_byte_of_string ("Could not enable tracing: " ++ err ++ newline) /\
    traces s' = traces s /\
    forall e r', e ∈ history s' -> le_ev e = EvServe r' -> e ∈ history s.
Proof.
  intros Hk Ha Hm Hr Hw He.
  rewrite (ServeHTTP_trace _ _ _ Hk Ha).
  rewrite (exec_trace_fail _ _ _ _ _ _ err Hm Hr He).
  destruct (start_failure_response w (new_id env) err Hw) as (H1 & H2 & _ & H4).
  eexists _, _. split; [reflexivity|]. repeat (split; [done|]).
  simpl. unfold trace_prefix. intros e r' Hin Hev.
  repeat (apply elem_of_cons in Hin as [->|Hin]; [discriminate Hev|]).
  exact Hin.
Qed.

(** C8.  A reset with the right key leaves an empty registry: a read of an
    id that named a session before the reset answers 404 after it. *)
Theorem C8_reset_discards_sessions t env tid w r s id buf env' tid' w' r' :
  req_key r = Key t ->
  Strings.eq_fold (req_action r) "reset" = true ->
  mutex_free s ->
  session s id = Some buf ->
  req_key r' = Key t ->
  Strings.eq_fold (req_action r') "read" = true ->
  req_id r' = id ->
  unwritten w' ->
  exists s1 w'' s2,
    exec t env tid (ServeHTTP t w r) s = Ok w s1 /\
    traces s1 = Some ∅ /\
    exec t env' tid' (ServeHTTP t w' r') s1 = Ok w'' s2 /\
    rw_status w'' = StatusNotFound /\
    traces s2 = Some ∅.
Proof.
  intros Hk Ha Hm Hs Hk' Ha' Hid Hw'.
  rewrite (ServeHTTP_reset _ _ _ Hk Ha), (ServeHTTP_read _ _ _ Hk' Ha').
  rewrite (exec_reset _ _ _ _ _ _ Hm).
  eexists _, _, _. split; [reflexivity|]. split; [reflexivity|].
  rewrite exec_read_missing.
  - split; [reflexivity|]. split; [by apply not_found_response|reflexivity].
  - simpl. by apply mutex_free_writer.
  - unfold session. simpl. apply lookup_empty.
Qed.

Lemma C6_read_witness :
  exists w' s',
    exec Demo.tracer Demo.env 2
         (ServeHTTP Demo.tracer RW.new Demo.read_req) Demo.traced =
      Ok w' s' /\
    rw_status w' = StatusOK /\
    rw_body w' = captured Demo.env.
Proof.
  assert (reachable Demo.tracer Demo.was_reset) as R1.
  { apply (reach_serve _ newState Demo.env 0 RW.new Demo.reset_req _
                       (reach_new _)).
    vm_compute. reflexivity. }
  assert (reachable Demo.tracer Demo.traced) as R2.
  { apply (reach_serve _ Demo.was_reset Demo.env 1 RW.new (Demo.trace_req) _ R1).
    vm_compute. reflexivity. }
  assert (req_key Demo.read_req = Key Demo.tracer) as Hk
    by reflexivity.
  assert (Strings.eq_fold (req_action Demo.read_req) "read" = true)
    as Ha by (vm_compute; reflexivity).
  assert (unwritten RW.new) as Hw by (split; reflexivity).
  assert (session Demo.traced (req_id Demo.read_req) =
          Some (captured Demo.env)) as Hs by (vm_compute; reflexivity).
  destruct (C6_read_serves_stored_session Demo.tracer Demo.env 2 RW.new
              Demo.read_req Demo.traced R2 Hk Ha Hw)
    as (w' & s' & He & _ & Hm & _).
  rewrite Hs in Hm. destruct Hm as (H1 & _ & H3).
  exists w', s'. split; [exact He|]. split; [exact H1|exact H3].
Defined.

Lemma C7_capture_start_failure_witness :
  exists w' s',
    exec Demo.tracer Demo.env_fail 0
         (ServeHTTP Demo.tracer RW.new (Demo.trace_req)) Demo.ready =
      Ok w' s' /\
    rw_status w' = StatusInternalServerError /\
    traces s' = traces Demo.ready.
Proof.
  assert (req_key (Demo.trace_req) = Key Demo.tracer) as Hk by reflexivity.
  assert (Strings.eq_fold (req_action (Demo.trace_req)) "trace" = true)
    as Ha by (vm_compute; reflexivity).
  assert (mutex_free Demo.ready) as Hm by reflexivity.
  assert (32 <= length (rand_bytes Demo.env_fail)) as Hr by (vm_compute; lia).
  assert (unwritten RW.new) as Hw by (split; reflexivity).
  assert (start_err Demo.env_fail = Some "tracing is already enabled") as He
    by reflexivity.
  destruct (C7_capture_start_failure Demo.tracer Demo.env_fail 0 RW.new
              (Demo.trace_req) Demo.ready _ Hk Ha Hm Hr Hw He)
    as (w' & s' & Hx & H1 & _ & _ & H4 & _).
  exists w', s'. split; [exact Hx|]. split; [exact H1|exact H4].
Defined.

Lemma C8_reset_discards_witness :
  exists s1 w'' s2,
    exec Demo.tracer Demo.env 2
         (ServeHTTP Demo.tracer RW.new Demo.reset_req) Demo.traced =
      Ok RW.new s1 /\
    exec Demo.tracer Demo.env 3
         (ServeHTTP Demo.tracer RW.new Demo.read_req) s1 =
      Ok w'' s2 /\
    rw_status w'' = StatusNotFound.
Proof.
  assert (req_key Demo.reset_req = Key Demo.tracer) as Hk by reflexivity.
  assert (Strings.eq_fold (req_action Demo.reset_req) "reset" = true)
    as Ha by (vm_compute; reflexivity).
  assert (mutex_free Demo.traced) as Hm by (vm_compute; reflexivity).
  assert (session Demo.traced Demo.id = Some (captured Demo.env)) as Hs
    by (vm_compute; reflexivity).
  assert (req_key Demo.read_req = Key Demo.tracer) as Hk'
    by reflexivity.
  assert (Strings.eq_fold (req_action Demo.read_req) "read" = true)
    as Ha' by (vm_compute; reflexivity).
  assert (req_id Demo.read_req = Demo.id) as Hid
    by (vm_compute; reflexivity).
  assert (unwritten RW.new) as Hw by (split; reflexivity).
  destruct (C8_reset_discards_sessions Demo.tracer Demo.env 2 RW.new
              Demo.reset_req Demo.traced Demo.id (captured Demo.env)
              Demo.env 3 RW.new Demo.read_req
              Hk Ha Hm Hs Hk' Ha' Hid Hw)
    as (s1 & w'' & s2 & H1 & _ & H3 & H4 & _).
  exists s1, w'', s2. split; [exact H1|]. split; [exact H3|exact H4].
Defined.

(** ** The id header of the response *)

(** C4, as the code has it.  A trace sets the id header before it starts the
    capture.  When the capture does not start, the 500 response carries the
    header although no session is stored; when it starts, the downstream
    handler gets the response writer with the header set, and the session is
    stored under that id. *)
Theorem C4_id_header_set_before_capture t env tid w r s :
  req_key r = Key t ->
  Strings.eq_fold (req_action r) "trace" = true ->
  mutex_free s ->
  32 <= length (rand_bytes env) ->
  unwritten w ->
  (forall err, start_err env = Some err ->
     exists w' s',
       exec t env tid (ServeHTTP t w r) s = Ok w' s' /\
       rw_status w' = StatusInternalServerError /\
       rw_sent w' !! xTReqsID = Some [new_id env] /\
       traces s' = traces s) /\
  (forall m, start_err env = None -> traces s = Some m ->
     exists s',
       exec t env tid (ServeHTTP t w r) s =
         Ok (Handler t (RW.HeaderSet w xTReqsID (new_id env)) (scrubbed r)) s' /\
       rw_header (RW.HeaderSet w xTReqsID (new_id env)) !! xTReqsID =
         Some [new_id env] /\
       session s' (new_id env) = Some (captured env)).
Proof.
  intros Hk Ha Hm Hr Hw. rewrite (ServeHTTP_trace _ _ _ Hk Ha). split.
  - intros err He. rewrite (exec_trace_fail _ _ _ _ _ _ err Hm Hr He).
    destruct (start_failure_response w (new_id env) err Hw) as (H1 & _ & H3 & _).
    eexists _, _. split; [reflexivity|]. split; [exact H1|]. split; [exact H3|].
    reflexivity.
  - intros m He Ht. rewrite (exec_trace_stored _ _ _ _ _ _ m Hm Hr He Ht).
    eexists. split; [reflexivity|]. split.
    + apply Set_lookup_id.
    + unfold session. simpl. apply lookup_insert_eq.
Qed.

Lemma C4_id_header_witness :
  exists w' s',
    exec Demo.tracer Demo.env_fail 0
         (ServeHTTP Demo.tracer RW.new (Demo.trace_req)) Demo.ready =
      Ok w' s' /\
    rw_status w' = StatusInternalServerError /\
    rw_sent w' !! xTReqsID = Some [new_id Demo.env_fail].
Proof.
  assert (req_key (Demo.trace_req) = Key Demo.tracer) as Hk by reflexivity.
  assert (Strings.eq_fold (req_action (Demo.trace_req)) "trace" = true)
    as Ha by (vm_compute; reflexivity).
  assert (mutex_free Demo.ready) as Hm by reflexivity.
  assert (32 <= length (rand_bytes Demo.env_fail)) as Hr by (vm_compute; lia).
  assert (unwritten RW.new) as Hw by (split; reflexivity).
  destruct (C4_id_header_set_before_capture Demo.tracer Demo.env_fail 0 RW.new
              (Demo.trace_req) Demo.ready Hk Ha Hm Hr Hw) as [Hfail _].
  destruct (Hfail "tracing is already enabled" eq_refl)
    as (w' & s' & Hx & H1 & H2 & _).
  exists w', s'. split; [exact Hx|]. split; [exact H1|exact H2].
Defined.

(** C4, as the claim has it, fails: the request below is a trace whose
    capture does not start; its response has the status 500 and an id
    header. *)
Lemma C4_id_header_on_failure_counterexample :
  let res := exec Demo.tracer Demo.env_fail 0
               (ServeHTTP Demo.tracer RW.new (Demo.trace_req)) Demo.ready in
  exists w' s',
    res = Ok w' s' /\
    rw_status w' = StatusInternalServerError /\
    rw_sent w' !! xTReqsID = Some [Demo.id] /\
    rw_sent w' !! xTReqsID <> None.
Proof.
  assert (start_failure :
    exec Demo.tracer Demo.env_fail 0
      (ServeHTTP Demo.tracer RW.new (Demo.trace_req)) Demo.ready =
    Ok (RW.WriteString
          (RW.WriteHeader
             (RW.HeaderSet (RW.HeaderSet RW.new xTReqsID Demo.id)
                           "Content-Type" "text/plain; charset=utf-8")
             StatusInternalServerError)
          ("Could not enable tracing: tracing is already enabled" ++ newline))
       (Demo.after (exec Demo.tracer Demo.env_fail 0
          (ServeHTTP Demo.tracer RW.new (Demo.trace_req)) Demo.ready)))
    by (vm_compute; reflexivity).
  intros res. subst res. rewrite start_failure. clear start_failure.
  eexists _, _. split; [reflexivity|].
  split; [vm_compute; reflexivity|].
  assert (forall w : ResponseWriter, rw_sent w !! xTReqsID = Some [Demo.id] ->
            rw_sent w !! xTReqsID = Some [Demo.id] /\ rw_sent w !! xTReqsID <> None) as H.
  { intros w0 ->. split; [reflexivity|discriminate]. }
  apply H. vm_compute. reflexivity.
Qed.

(** ** The nil registry of a new tracer *)

(** On a tracer whose registry is still the nil map, a trace whose capture
    starts runs the downstream handler, stops the capture, and panics at the
    store. *)
Lemma trace_on_nil_registry t env tid w r s :
  req_key r = Key t ->
  Strings.eq_fold (req_action r) "trace" = true ->
  mutex_free s ->
  traces s = None ->
  32 <= length (rand_bytes env) ->
  start_err env = None ->
  exists s',
    exec t env tid (ServeHTTP t w r) s =
      Panicked "assignment to entry in nil map" s' /\
    traces s' = None.
Proof.
  intros Hk Ha Hm Ht Hr He. rewrite (ServeHTTP_trace _ _ _ Hk Ha).
  rewrite (exec_trace_nil _ _ _ _ _ _ Hm Hr He Ht).
  eexists. split; reflexivity.
Qed.

(** C3, on the code.  The registry of a new tracer is the nil map: the first
    trace panics when it stores its buffer, and the read of the id it would
    have emitted answers 404. *)
Theorem C3_first_trace_panics_on_nil_map :
  traces newState = None /\
  exists s',
    exec Demo.tracer Demo.env 0
         (ServeHTTP Demo.tracer RW.new (Demo.trace_req)) newState =
      Panicked "assignment to entry in nil map" s' /\
    traces s' = None /\
    new_id Demo.env = Demo.id /\
    exists w2 s2,
      exec Demo.tracer Demo.env 1
           (ServeHTTP Demo.tracer RW.new Demo.read_req) s' =
        Ok w2 s2 /\
      rw_status w2 = StatusNotFound.
Proof.
  split; [reflexivity|].
  assert (req_key (Demo.trace_req) = Key Demo.tracer) as Hk by reflexivity.
  assert (Strings.eq_fold (req_action (Demo.trace_req)) "trace" = true)
    as Ha by (vm_compute; reflexivity).
  assert (32 <= length (rand_bytes Demo.env)) as Hr by (vm_compute; lia).
  destruct (trace_on_nil_registry Demo.tracer Demo.env 0 RW.new
              (Demo.trace_req) newState Hk Ha eq_refl eq_refl Hr eq_refl)
    as (s' & Hx & Ht).
  exists s'. split; [exact Hx|]. split; [exact Ht|].
  split; [vm_compute; reflexivity|].
  assert (req_key Demo.read_req = Key Demo.tracer) as Hk'
    by reflexivity.
  assert (Strings.eq_fold (req_action Demo.read_req) "read" = true)
    as Ha' by (vm_compute; reflexivity).
  assert (writer (mu s') = false) as Hw.
  { clear -Hx Hk Ha Hr. rewrite (ServeHTTP_trace _ _ _ Hk Ha) in Hx.
    rewrite (exec_trace_nil _ _ _ _ _ newState eq_refl Hr eq_refl eq_refl) in Hx.
    injection Hx as <-. reflexivity. }
  assert (session s' (req_id Demo.read_req) = None) as Hs.
  { unfold session. rewrite Ht. reflexivity. }
  rewrite (ServeHTTP_read _ _ _ Hk' Ha').
  rewrite (exec_read_missing _ _ _ _ _ _ _ Hw Hs).
  eexists _, _. split; [reflexivity|].
  apply not_found_response. split; reflexivity.
Qed.

(** ** The lock *)

(** What the lock does protect: the registry is replaced by [reset] while
    the writer holds the mutex, and looked up by [read] while a reader does. *)
Lemma reset_makes_under_exclusive_lock t env tid w r s s' :
  mutex_free s ->
  state_of (exec t env tid (reset w r) s) = Some s' ->
  MkEntry tid EvMake (MkMu true 0) ∈ history s'.
Proof.
  intros Hm. rewrite (exec_reset _ _ _ _ _ _ Hm). simpl. intros [= <-]. simpl.
  rewrite !elem_of_cons. right. by left.
Qed.

Lemma read_looks_up_under_shared_lock t env tid id w r s s' :
  writer (mu s) = false ->
  state_of (exec t env tid (read id w r) s) = Some s' ->
  MkEntry tid (EvLookup id) (MkMu false (S (readers (mu s)))) ∈ history s'.
Proof.
  intros Hw. destruct (session s id) as [buf|] eqn:Hs.
  - rewrite (exec_read_found _ _ _ _ _ _ _ buf Hw Hs). simpl. intros [= <-]. simpl.
    rewrite !elem_of_cons. right. by left.
  - rewrite (exec_read_missing _ _ _ _ _ _ _ Hw Hs). simpl. intros [= <-]. simpl.
    rewrite !elem_of_cons. right. by left.
Qed.

(** What it does not: [trace] gives the mutex back before anything else, so
    the store of a trace runs with the mutex free. *)
Lemma trace_stores_with_mutex_free t env tid w r s m s' :
  mutex_free s ->
  32 <= length (rand_bytes env) ->
  start_err env = None ->
  traces s = Some m ->
  state_of (exec t env tid (trace w r) s) = Some s' ->
  stores s' = MkEntry tid (EvStore (new_id env)) (MkMu false 0) :: stores s /\
  under_lock s' = MkEntry tid EvUnlock (MkMu true 0) :: under_lock s.
Proof.
  intros Hm Hr He Ht. rewrite (exec_trace_stored _ _ _ _ _ _ m Hm Hr He Ht).
  simpl. intros [= <-]. unfold stores, under_lock, trace_prefix. simpl.
  rewrite Hm. simpl. done.
Qed.

(** C1, on the code.  A trace and a request of the ordinary traffic are
    accepted together.  The trace takes the mutex, gives it back, and starts
    the capture; the other request then takes the shared lock, runs the
    downstream handler and returns, all before the trace has run the
    handler and stopped the capture.  No operation of the trace but its
    [Unlock] runs with the mutex held. *)
Theorem C1_passthrough_completes_during_capture :
  observe <$> run Demo.tracer [0; 0; 0; 0; 1; 1; 1; 1] Demo.race =
    Some ([(0, EvLock); (0, EvUnlock); (0, EvRand); (0, EvTraceStart true);
           (1, EvRLock); (1, EvServe (scrubbed Demo.plain)); (1, EvRUnlock)],
          [None; Some (Demo.hello RW.new (scrubbed Demo.plain))]) /\
  observe <$> run Demo.tracer [0; 0; 0; 0; 1; 1; 1; 1; 0; 0; 0; 0] Demo.race =
    Some ([(0, EvLock); (0, EvUnlock); (0, EvRand); (0, EvTraceStart true);
           (1, EvRLock); (1, EvServe (scrubbed Demo.plain)); (1, EvRUnlock);
           (0, EvServe (scrubbed (Demo.trace_req)));
           (0, EvTraceStop); (0, EvStore Demo.id)],
          [Some (Demo.hello (RW.HeaderSet RW.new xTReqsID Demo.id)
                            (scrubbed (Demo.trace_req)));
           Some (Demo.hello RW.new (scrubbed Demo.plain))]) /\
  (under_lock ∘ cfg_state) <$>
      run Demo.tracer [0; 0; 0; 0; 1; 1; 1; 1; 0; 0; 0; 0] Demo.race =
    Some [MkEntry 0 EvUnlock (MkMu true 0)].
Proof. split; [|split]; vm_compute; reflexivity. Qed.

(** C2, on the code.  The store of a trace runs with the mutex free; run
    side by side with a read, it runs while the read holds the shared
    lock. *)
Theorem C2_trace_stores_without_lock :
  stores (Demo.after (exec Demo.tracer Demo.env 0
            (ServeHTTP Demo.tracer RW.new (Demo.trace_req)) Demo.ready)) =
    [MkEntry 0 (EvStore Demo.id) (MkMu false 0)] /\
  (stores ∘ cfg_state) <$>
      run Demo.tracer [0; 0; 0; 0; 0; 0; 1; 0; 1; 1] Demo.trace_and_read =
    Some [MkEntry 0 (EvStore Demo.id) (MkMu false 1)] /\
  timeline ∘ cfg_state <$>
      run Demo.tracer [0; 0; 0; 0; 0; 0; 1; 0; 1; 1] Demo.trace_and_read =
    Some [(0, EvLock); (0, EvUnlock); (0, EvRand); (0, EvTraceStart true);
          (0, EvServe (scrubbed (Demo.trace_req))); (0, EvTraceStop);
          (1, EvRLock); (0, EvStore Demo.id); (1, EvLookup Demo.id);
          (1, EvRUnlock)].
Proof. split; [|split]; vm_compute; reflexivity. Qed.

(** * More of the package *)

(** ** Session ids *)

Section SessionIds.

Lemma hex_byte (x : byte) :
  let n := N.to_nat (Byte.to_N x) in
  Unhex.fromHexChar (Hex.digit (n / 16)) = Some (n / 16) /\
  Unhex.fromHexChar (Hex.digit (n mod 16)) = Some (n mod 16) /\
  Byte.of_N (N.of_nat (16 * (n / 16) + n mod 16)) = Some x /\
  Unhex.lower_hex (Hex.digit (n / 16)) = true /\
  Unhex.lower_hex (Hex.digit (n mod 16)) = true.
Proof. destruct x; vm_compute; repeat split; reflexivity. Qed.

Lemma DecodeString_pair a b s :
  Unhex.DecodeString (String a (String b s)) =
    match Unhex.fromHexChar a, Unhex.fromHexChar b, Unhex.DecodeString s with
    | Some h, Some l, Some rest =>
        match Byte.of_N (N.of_nat (16 * h + l)) with
        | Some x => Some (x :: rest)
        | None => None
        end
    | _, _, _ => None
    end.
Proof. reflexivity. Qed.

Lemma EncodeToString_cons x b :
  Hex.EncodeToString (x :: b) =
    String (Hex.digit (N.to_nat (Byte.to_N x) / 16))
      (String (Hex.digit (N.to_nat (Byte.to_N x) mod 16)) (Hex.EncodeToString b)).
Proof. reflexivity. Qed.

(** Decoding undoes encoding. *)
Lemma Decode_Encode b : Unhex.DecodeString (Hex.EncodeToString b) = Some b.
Proof.
  induction b as [|x b IH]; [reflexivity|].
  rewrite EncodeToString_cons, DecodeString_pair, IH.
  destruct (hex_byte x) as (-> & -> & -> & _). reflexivity.
Qed.

Lemma Encode_lower_hex b :
  Strings.all_bytes Unhex.lower_hex (Hex.EncodeToString b) = true.
Proof.
  induction b as [|x b IH]; [reflexivity|].
  rewrite EncodeToString_cons. cbn [Strings.all_bytes].
  destruct (hex_byte x) as (_ & _ & _ & -> & ->). exact IH.
Qed.

End SessionIds.

(** X1.  The id [randHex] makes of the 32 bytes of the random source has 64
    characters, all of them digits of [0-9a-f], and the continuation of
    [randHex] runs with that id. *)
Theorem randHex_id_format {A : Type} t env tid (k : string -> Prog A) s :
  32 <= length (rand_bytes env) ->
  exec t env tid (randHex k) s =
    exec t env tid (k (new_id env))
         (MkState (mu s) (traces s) (record tid EvRand s)) /\
  String.length (new_id env) = 64 /\
  Strings.all_bytes Unhex.lower_hex (new_id env) = true.
Proof.
  intros Hr. split; [|split].
  - unfold randHex, new_id. cbn [exec interp].
    rewrite (ReadFull_enough env Hr). reflexivity.
  - by apply new_id_length.
  - apply Encode_lower_hex.
Qed.

Lemma randHex_id_format_witness :
  String.length (new_id Demo.env) = 64 /\
  Strings.all_bytes Unhex.lower_hex (new_id Demo.env) = true.
Proof.
  assert (32 <= length (rand_bytes Demo.env)) as Hr by (vm_compute; lia).
  exact (proj2 (randHex_id_format Demo.tracer Demo.env 0
                  (fun _ => Ret tt) Demo.ready Hr)).
Defined.

(** X2.  The id is the hexadecimal writing of the first 32 bytes of the
    random source and nothing else: decoding it gives these bytes back, so
    two traces get the same id only when the source delivered the same
    bytes twice. *)
Theorem new_id_decodes env1 env2 :
  Unhex.DecodeString (new_id env1) = Some (take 32 (rand_bytes env1)) /\
  (new_id env1 = new_id env2 ->
   take 32 (rand_bytes env1) = take 32 (rand_bytes env2)).
Proof.
  split; [apply Decode_Encode|].
  intros H. apply (f_equal Unhex.DecodeString) in H.
  unfold new_id in H. rewrite !Decode_Encode in H. by injection H.
Qed.

Lemma new_id_decodes_witness :
  Unhex.DecodeString Demo.id = Some (repeat "*"%byte 32).
Proof.
  exact (proj1 (new_id_decodes Demo.env Demo.env)).
Defined.

(** ** The classifier, once more *)

(** X3.  Whatever the order in which the loop of [scrubHeader] meets the
    names of the map, the key, the action and the id it returns are the
    first values stored under the three control names (the empty string
    for a name that is absent or has no value), and the map ends empty. *)
Theorem scrubHeader_first_values (hdr : Header) ks :
  NoDup ks ->
  (forall k, k ∈ ks <-> is_Some (hdr !! k)) ->
  scrubRange ks (MkScrub EmptyString EmptyString EmptyString hdr) =
    MkScrub (Hdr.Get hdr xTReqsKey) (Hdr.Get hdr xTReqsAction)
            (Hdr.Get hdr xTReqsID) ∅.
Proof.
  intros Hnd Hdom. by rewrite scrubRange_any_order, scrubHeader_spec.
Qed.

Lemma scrubHeader_first_values_witness :
  scrubRange ["X-Treqs-Key"; "Accept"; "X-Treqs-Action"]
    (MkScrub EmptyString EmptyString EmptyString
             (r_header Demo.intruder ∪ r_header Demo.plain)) =
  MkScrub "guess" "trace" EmptyString ∅.
Proof.
  refine (eq_trans (scrubHeader_first_values
            (r_header Demo.intruder ∪ r_header Demo.plain)
            ["X-Treqs-Key"; "Accept"; "X-Treqs-Action"] _ _) _).
  - apply (bool_decide_unpack _). vm_compute. exact I.
  - intros k. rewrite <- range_names.
    replace ((map_to_list (r_header Demo.intruder ∪ r_header Demo.plain)).*1)
      with ["Accept"; "X-Treqs-Key"; "X-Treqs-Action"]
      by (vm_compute; reflexivity).
    rewrite !elem_of_cons. tauto.
  - vm_compute. reflexivity.
Defined.

(** X4.  A control header written with [Header.Set] is found by
    [scrubHeader] however its name was spelled, because [Set] stores it
    under the canonical name: so the id set as "X-Treqs-ID". *)
Theorem Set_then_scrub (h : Header) k v :
  (Hdr.CanonicalMIMEHeaderKey k = xTReqsKey ->
   sc_key (scrubHeader (Hdr.Set_ h k v)) = v) /\
  (Hdr.CanonicalMIMEHeaderKey k = xTReqsAction ->
   sc_action (scrubHeader (Hdr.Set_ h k v)) = v) /\
  (Hdr.CanonicalMIMEHeaderKey k = xTReqsID ->
   sc_id (scrubHeader (Hdr.Set_ h k v)) = v).
Proof.
  rewrite scrubHeader_spec. simpl. unfold Hdr.Get, Hdr.Set_.
  rewrite canonical_key, canonical_action, canonical_id.
  repeat split; intros ->; by rewrite lookup_insert_eq.
Qed.

Lemma Set_then_scrub_witness :
  sc_id (scrubHeader (Hdr.Set_ ∅ "X-Treqs-ID" Demo.id)) = Demo.id /\
  sc_key (scrubHeader (Hdr.Set_ ∅ "x-treqs-key" "s3cr3t")) = "s3cr3t".
Proof.
  split.
  - apply (proj2 (proj2 (Set_then_scrub ∅ "X-Treqs-ID" Demo.id))).
    vm_compute. reflexivity.
  - apply (proj1 (Set_then_scrub ∅ "x-treqs-key" "s3cr3t")).
    vm_compute. reflexivity.
Defined.

(** X5.  [scrubHeader] compares the names of the map byte for byte with the
    canonical control names.  A request whose map has no entry named
    exactly "X-Treqs-Key" (the key may sit under another spelling, in a map
    filled without [Header.Set]) has the empty key, and a tracer with a
    key that is not empty serves it by the pass-through case. *)
Theorem exact_name_only t w r :
  r_header r !! xTReqsKey = None ->
  Key t <> EmptyString ->
  req_key r = EmptyString /\
  ServeHTTP t w r = passthrough w (scrubbed r).
Proof.
  intros Hn Hk.
  assert (req_key r = EmptyString) as He.
  { unfold req_key, Hdr.Get. by rewrite canonical_key, Hn. }
  split; [exact He|]. apply ServeHTTP_unauthorized. rewrite He. congruence.
Qed.

Lemma exact_name_only_witness :
  let r := MkRequest "GET" "/pi"
             (<["x-treqs-key" := ["s3cr3t"]]> (<[xTReqsAction := ["reset"]]> ∅)) [] in
  ServeHTTP Demo.tracer RW.new r = passthrough RW.new (scrubbed r).
Proof.
  intros r.
  assert (r_header r !! xTReqsKey = None) as Hn by (vm_compute; reflexivity).
  assert (Key Demo.tracer <> EmptyString) as Hk by (intros H; discriminate H).
  exact (proj2 (exact_name_only Demo.tracer RW.new r Hn Hk)).
Defined.

(** X6.  A tracer whose [Key] was left empty takes a request without key
    header for authorized: the action of such a request is obeyed. *)
Theorem empty_key_authorizes t w r :
  Key t = EmptyString ->
  r_header r !! xTReqsKey = None ->
  ServeHTTP t w r =
    match classify (req_action r) with
    | ActPass => passthrough w (scrubbed r)
    | ActRead => read (req_id r) w (scrubbed r)
    | ActReset => reset w (scrubbed r)
    | ActTrace => trace w (scrubbed r)
    end.
Proof.
  intros Hk Hn. apply ServeHTTP_authorized.
  unfold req_key, Hdr.Get. by rewrite canonical_key, Hn, Hk.
Qed.

Lemma empty_key_authorizes_witness :
  let t := MkTracer Demo.hello EmptyString in
  let r := MkRequest "GET" "/pi" (<[xTReqsAction := ["reset"]]> ∅) [] in
  ServeHTTP t RW.new r = reset RW.new (scrubbed r).
Proof.
  intros t r.
  assert (r_header r !! xTReqsKey = None) as Hn by (vm_compute; reflexivity).
  assert (classify (req_action r) = ActReset) as Hc by (vm_compute; reflexivity).
  pose proof (empty_key_authorizes t RW.new r eq_refl Hn) as H.
  rewrite Hc in H. exact H.
Defined.

(** ** The registry, once more *)

(** X7.  When the random source cannot deliver 32 bytes, an authorized trace
    panics right after it has taken and given back the mutex: the capture
    is not started, the downstream handler is not called, and the registry
    and the mutex are left as they were. *)
Theorem trace_without_random_bytes t env tid w r s :
  req_key r = Key t ->
  Strings.eq_fold (req_action r) "trace" = true ->
  mutex_free s ->
  length (rand_bytes env) < 32 ->
  exists s',
    exec t env tid (ServeHTTP t w r) s = Panicked "unexpected EOF" s' /\
    traces s' = traces s /\
    mu s' = mu s /\
    timeline s' =
      (timeline s ++ [(tid, EvLock); (tid, EvUnlock); (tid, EvRand)])%list.
Proof.
  intros Hk Ha Hm Hr. rewrite (ServeHTTP_trace _ _ _ Hk Ha).
  rewrite (exec_trace_short _ _ _ _ _ _ Hm Hr).
  eexists. split; [reflexivity|]. simpl.
  split; [reflexivity|]. split; [reflexivity|]. apply timeline_snoc3.
Qed.

Lemma trace_without_random_bytes_witness :
  exists s',
    exec Demo.tracer (MkEnv (repeat "*"%byte 31) None []) 0
         (ServeHTTP Demo.tracer RW.new Demo.trace_req) Demo.ready =
      Panicked "unexpected EOF" s' /\
    traces s' = traces Demo.ready.
Proof.
  assert (req_key Demo.trace_req = Key Demo.tracer) as Hk by reflexivity.
  assert (Strings.eq_fold (req_action Demo.trace_req) "trace" = true)
    as Ha by (vm_compute; reflexivity).
  assert (mutex_free Demo.ready) as Hm by reflexivity.
  assert (length (rand_bytes (MkEnv (repeat "*"%byte 31) None [])) < 32) as Hr
    by (vm_compute; lia).
  destruct (trace_without_random_bytes Demo.tracer _ 0 RW.new Demo.trace_req
              Demo.ready Hk Ha Hm Hr) as (s' & Hx & Ht & _).
  exists s'. split; [exact Hx|exact Ht].
Defined.

(** X8.  On a tracer whose registry has been made, a trace whose capture
    starts and a read of the id the trace has put in its response give the
    captured bytes back: the read answers 200, content type
    application/octet-stream, with exactly the bytes the runtime wrote
    during the trace. *)
Theorem trace_then_read t env tid w r s m env' tid' w' r' :
  req_key r = Key t ->
  Strings.eq_fold (req_action r) "trace" = true ->
  mutex_free s ->
  traces s = Some m ->
  32 <= length (rand_bytes env) ->
  start_err env = None ->
  req_key r' = Key t ->
  Strings.eq_fold (req_action r') "read" = true ->
  req_id r' = new_id env ->
  unwritten w' ->
  exists s1 w2 s2,
    exec t env tid (ServeHTTP t w r) s =
      Ok (Handler t (RW.HeaderSet w xTReqsID (new_id env)) (scrubbed r)) s1 /\
    exec t env' tid' (ServeHTTP t w' r') s1 = Ok w2 s2 /\
    rw_status w2 = StatusOK /\
    rw_sent w2 !! "Content-Type" = Some ["application/octet-stream"] /\
    rw_body w2 = captured env /\
    traces s2 = traces s1.
Proof.
  intros Hk Ha Hm Ht Hr He Hk' Ha' Hid Hw'.
  rewrite (ServeHTTP_trace _ _ _ Hk Ha), (ServeHTTP_read _ _ _ Hk' Ha').
  rewrite (exec_trace_stored _ _ _ _ _ _ m Hm Hr He Ht).
  eexists _, _, _. split; [reflexivity|].
  rewrite (exec_read_found _ _ _ _ _ _ _ (captured env)).
  - split; [reflexivity|].
    destruct (read_found_response w' (captured env) Hw') as (H1 & H2 & H3).
    repeat (split; [assumption|]). reflexivity.
  - simpl. by apply mutex_free_writer.
  - unfold session. simpl. rewrite Hid. apply lookup_insert_eq.
Qed.

Lemma trace_then_read_witness :
  exists s1 w2 s2,
    exec Demo.tracer Demo.env 0
         (ServeHTTP Demo.tracer RW.new Demo.trace_req) Demo.ready =
      Ok (Demo.hello (RW.HeaderSet RW.new xTReqsID (new_id Demo.env))
                     (scrubbed Demo.trace_req)) s1 /\
    exec Demo.tracer Demo.env 1
         (ServeHTTP Demo.tracer RW.new Demo.read_req) s1 = Ok w2 s2 /\
    rw_status w2 = StatusOK /\
    rw_body w2 = captured Demo.env.
Proof.
  assert (req_key Demo.trace_req = Key Demo.tracer) as Hk by reflexivity.
  assert (Strings.eq_fold (req_action Demo.trace_req) "trace" = true)
    as Ha by (vm_compute; reflexivity).
  assert (mutex_free Demo.ready) as Hm by reflexivity.
  assert (32 <= length (rand_bytes Demo.env)) as Hr by (vm_compute; lia).
  assert (req_key Demo.read_req = Key Demo.tracer) as Hk' by reflexivity.
  assert (Strings.eq_fold (req_action Demo.read_req) "read" = true)
    as Ha' by (vm_compute; reflexivity).
  assert (req_id Demo.read_req = new_id Demo.env) as Hid
    by (vm_compute; reflexivity).
  assert (unwritten RW.new) as Hw by (split; reflexivity).
  destruct (trace_then_read Demo.tracer Demo.env 0 RW.new Demo.trace_req
              Demo.ready ∅ Demo.env 1 RW.new Demo.read_req
              Hk Ha Hm eq_refl Hr eq_refl Hk' Ha' Hid Hw)
    as (s1 & w2 & s2 & H1 & H2 & H3 & _ & H5 & _).
  exists s1, w2, s2. repeat (split; [assumption|]). exact H5.
Defined.

(** X9.  A trace whose capture starts changes one entry of the registry:
    the session under the new id is the new capture, whatever was stored
    under that id before, and every other session is as it was. *)
Theorem trace_stores_one_session t env tid w r s m :
  req_key r = Key t ->
  Strings.eq_fold (req_action r) "trace" = true ->
  mutex_free s ->
  traces s = Some m ->
  32 <= length (rand_bytes env) ->
  start_err env = None ->
  exists w1 s1,
    exec t env tid (ServeHTTP t w r) s = Ok w1 s1 /\
    session s1 (new_id env) = Some (captured env) /\
    (forall id, id <> new_id env -> session s1 id = session s id) /\
    mu s1 = mu s.
Proof.
  intros Hk Ha Hm Ht Hr He. rewrite (ServeHTTP_trace _ _ _ Hk Ha).
  rewrite (exec_trace_stored _ _ _ _ _ _ m Hm Hr He Ht).
  eexists _, _. split; [reflexivity|]. unfold session. simpl. rewrite Ht.
  split; [apply lookup_insert_eq|]. split; [|reflexivity].
  intros id Hid. by apply lookup_insert_ne.
Qed.

Lemma trace_stores_one_session_witness :
  exists w1 s1,
    exec Demo.tracer (MkEnv (repeat "+"%byte 32) None ["n"%byte]) 2
         (ServeHTTP Demo.tracer RW.new Demo.trace_req) Demo.traced = Ok w1 s1 /\
    session s1 Demo.id = session Demo.traced Demo.id.
Proof.
  assert (req_key Demo.trace_req = Key Demo.tracer) as Hk by reflexivity.
  assert (Strings.eq_fold (req_action Demo.trace_req) "trace" = true)
    as Ha by (vm_compute; reflexivity).
  assert (mutex_free Demo.traced) as Hm by (vm_compute; reflexivity).
  assert (traces Demo.traced = Some {[Demo.id := captured Demo.env]}) as Ht
    by (vm_compute; reflexivity).
  assert (32 <= length (rand_bytes (MkEnv (repeat "+"%byte 32) None ["n"%byte])))
    as Hr by (vm_compute; lia).
  assert (Demo.id <> new_id (MkEnv (repeat "+"%byte 32) None ["n"%byte])) as Hne
    by (vm_compute; intros H; discriminate H).
  destruct (trace_stores_one_session Demo.tracer _ 2 RW.new Demo.trace_req
              Demo.traced _ Hk Ha Hm Ht Hr eq_refl) as (w1 & s1 & H1 & _ & H3 & _).
  exists w1, s1. split; [exact H1|]. exact (H3 Demo.id Hne).
Defined.

(** X10.  A reset makes the registry, also on a new tracer, whose registry
    is the nil map: after a reset, a trace whose capture starts returns and
    leaves the registry with its session alone. *)
Theorem reset_then_trace t env tid w r s env' tid' w' r' :
  req_key r = Key t ->
  Strings.eq_fold (req_action r) "reset" = true ->
  mutex_free s ->
  req_key r' = Key t ->
  Strings.eq_fold (req_action r') "trace" = true ->
  32 <= length (rand_bytes env') ->
  start_err env' = None ->
  exists s1 w2 s2,
    exec t env tid (ServeHTTP t w r) s = Ok w s1 /\
    exec t env' tid' (ServeHTTP t w' r') s1 = Ok w2 s2 /\
    traces s2 = Some {[new_id env' := captured env']} /\
    mutex_free s2.
Proof.
  intros Hk Ha Hm Hk' Ha' Hr He.
  rewrite (ServeHTTP_reset _ _ _ Hk Ha), (ServeHTTP_trace _ _ _ Hk' Ha').
  rewrite (exec_reset _ _ _ _ _ _ Hm).
  eexists _, _, _. split; [reflexivity|].
  rewrite (exec_trace_stored _ _ _ _ _ _ ∅) by done.
  split; [reflexivity|]. simpl. split; [by rewrite insert_empty|exact Hm].
Qed.

Lemma reset_then_trace_witness :
  exists s1 w2 s2,
    exec Demo.tracer Demo.env 0
         (ServeHTTP Demo.tracer RW.new Demo.reset_req) newState = Ok RW.new s1 /\
    exec Demo.tracer Demo.env 1
         (ServeHTTP Demo.tracer RW.new Demo.trace_req) s1 = Ok w2 s2 /\
    traces s2 = Some {[new_id Demo.env := captured Demo.env]}.
Proof.
  assert (req_key Demo.reset_req = Key Demo.tracer) as Hk by reflexivity.
  assert (Strings.eq_fold (req_action Demo.reset_req) "reset" = true)
    as Ha by (vm_compute; reflexivity).
  assert (mutex_free newState) as Hm by reflexivity.
  assert (req_key Demo.trace_req = Key Demo.tracer) as Hk' by reflexivity.
  assert (Strings.eq_fold (req_action Demo.trace_req) "trace" = true)
    as Ha' by (vm_compute; reflexivity).
  assert (32 <= length (rand_bytes Demo.env)) as Hr by (vm_compute; lia).
  destruct (reset_then_trace Demo.tracer Demo.env 0 RW.new Demo.reset_req
              newState Demo.env 1 RW.new Demo.trace_req
              Hk Ha Hm Hk' Ha' Hr eq_refl)
    as (s1 & w2 & s2 & H1 & H2 & H3 & _).
  exists s1, w2, s2. split; [exact H1|]. split; [exact H2|exact H3].
Defined.

(** ** Who waits for whom *)



(** ** Requests side by side: the protocol of the mutex *)

Section Protocol.

Variable t : Tracer.

Lemma holders_insert x ms i m m' :
  ms !! i = Some m ->
  holders x (<[i := m']> ms) + (if decide (m = x) then 1 else 0) =
  holders x ms + (if decide (m' = x) then 1 else 0).
Proof.
  revert i. induction ms as [|m0 ms IH]; intros [|i] H; simpl in *;
    try discriminate.
  - injection H as ->. lia.
  - specialize (IH i H). lia.
Qed.

Lemma holders_lookup ms i m : ms !! i = Some m -> 1 <= holders m ms.
Proof.
  revert i. induction ms as [|m0 ms IH]; intros [|i] H; simpl in *;
    try discriminate.
  - injection H as ->. rewrite decide_True by done. lia.
  - specialize (IH i H). lia.
Qed.

Lemma holders_all_free x ms :
  x <> Free -> Forall (fun m => m = Free) ms -> holders x ms = 0.
Proof.
  intros Hx. induction 1 as [|m ms -> _ IH]; simpl; [done|].
  rewrite decide_False by done. exact IH.
Qed.

Lemma phase_ServeHTTP w r : phase Free (ServeHTTP t w r).
Proof.
  rewrite ServeHTTP_unfold.
  destruct (classify _); unfold passthrough, read, reset, trace, randHex; simpl.
  - repeat split.
  - split; [done|]. split; [done|]. intros [buf|]; simpl; repeat split.
  - repeat split.
  - split; [done|]. split; [done|]. intros [b|]; simpl; [|done].
    intros [e|]; simpl; [done|]. intros w0 buf. done.
Qed.

Lemma protocol_update ths ms i env m' st' s' :
  Forall2 thread_mode ths ms ->
  thread_mode (MkThread env st') m' ->
  mutex_agrees (mu s') (<[i := m']> ms) ->
  protocol (MkConfig s' (<[i := MkThread env st']> ths)).
Proof.
  intros Hall Hth Hag. exists (<[i := m']> ms). split; [|exact Hag].
  by apply Forall2_insert.
Qed.

Lemma disciplined_record s tid ev tr :
  disciplined s ->
  (ev = EvMake -> mu s = MkMu true 0) ->
  (forall id, ev = EvLookup id -> writer (mu s) = false /\ 1 <= readers (mu s)) ->
  forall m', disciplined (MkState m' tr (record tid ev s)).
Proof.
  intros Hd Hmake Hlook m' e. unfold record. simpl. rewrite elem_of_cons.
  intros [->|Hin]; [|by apply Hd]. simpl. split; [exact Hmake|exact Hlook].
Qed.

End Protocol.

Ltac mode_counts ms i m m' Hm :=
  let HS := fresh "HS" in
  let HE := fresh "HE" in
  pose proof (holders_insert Shared ms i m m' Hm) as HS;
  pose proof (holders_insert Excl ms i m m' Hm) as HE;
  pose proof (holders_lookup ms i m Hm);
  repeat (case_decide; try congruence).

Ltac agrees :=
  unfold mutex_agrees in *; cbn in *;
  repeat match goal with
         | H : _ /\ _ |- _ => destruct H
         end;
  repeat split; try (let Hw := fresh in intros Hw; try discriminate Hw);
  try lia; try congruence.

(** One operation of one request keeps the protocol and the discipline. *)
Lemma step_protocol t i c c' :
  protocol c ->
  step t i c = Some c' ->
  protocol c' /\ (disciplined (cfg_state c) -> disciplined (cfg_state c')).
Proof.
  intros (ms & Hall & Hag) Hstep. unfold step in Hstep.
  destruct (cfg_threads c !! i) as [[env st]|] eqn:Hth; [|discriminate].
  destruct st as [p|w0|msg0]; try discriminate.
  destruct (Forall2_lookup_l _ _ _ _ _ Hall Hth) as (m & Hm & Hph).
  unfold thread_mode in Hph. cbn in Hph.
  destruct c as [s ths]. cbn in *.
  destruct p as [a|msg|B cmd k]; cbn in Hph.
  - injection Hstep as <-. subst m. split; [|done].
    apply (protocol_update ths ms i env Free); [done|done|].
    by rewrite list_insert_id.
  - injection Hstep as <-. destruct Hph as [-> ->]. split; [|done].
    apply (protocol_update ths ms i env Free); [done| |].
    + split; [done|by right].
    + by rewrite list_insert_id.
  - destruct s as [[wr n] tr h]. destruct cmd; cbn in Hstep, Hph.
    + (* Lock *)
      destruct Hph as [-> Hk]. destruct wr; [discriminate|].
      destruct n; [|discriminate]. cbn in Hstep. injection Hstep as <-.
      mode_counts ms i Free Excl Hm. split.
      * apply (protocol_update ths ms i env Excl); [done|done|].
        agrees.
      * intros Hd. apply disciplined_record; [done|discriminate|discriminate].
    + (* Unlock *)
      destruct Hph as [-> Hk]. mode_counts ms i Excl Free Hm.
      destruct wr; [|exfalso; agrees].
      cbn in Hstep. injection Hstep as <-. split.
      * apply (protocol_update ths ms i env Free); [done|done|].
        agrees.
      * intros Hd. apply disciplined_record; [done|discriminate|discriminate].
    + (* RLock *)
      destruct Hph as [-> Hk]. destruct wr; [discriminate|].
      cbn in Hstep. injection Hstep as <-.
      mode_counts ms i Free Shared Hm. split.
      * apply (protocol_update ths ms i env Shared); [done|done|].
        agrees.
      * intros Hd. apply disciplined_record; [done|discriminate|discriminate].
    + (* RUnlock *)
      destruct Hph as [-> Hk]. mode_counts ms i Shared Free Hm.
      destruct n as [|n]; [exfalso; agrees|].
      cbn in Hstep. injection Hstep as <-. split.
      * apply (protocol_update ths ms i env Free); [done|done|].
        destruct wr; agrees.
      * intros Hd. apply disciplined_record; [done|discriminate|discriminate].
    + (* ReadFull *)
      injection Hstep as <-. split.
      * apply (protocol_update ths ms i env m); [done|apply Hph|].
        by rewrite list_insert_id.
      * intros Hd. apply disciplined_record; [done|discriminate|discriminate].
    + (* TraceStart *)
      injection Hstep as <-. split.
      * apply (protocol_update ths ms i env m); [done|apply Hph|].
        by rewrite list_insert_id.
      * intros Hd. apply disciplined_record; [done|discriminate|discriminate].
    + (* TraceStop *)
      injection Hstep as <-. split.
      * apply (protocol_update ths ms i env m); [done|apply Hph|].
        by rewrite list_insert_id.
      * intros Hd. apply disciplined_record; [done|discriminate|discriminate].
    + (* Serve *)
      injection Hstep as <-. split.
      * apply (protocol_update ths ms i env m); [done|apply Hph|].
        by rewrite list_insert_id.
      * intros Hd. apply disciplined_record; [done|discriminate|discriminate].
    + (* MapLookup *)
      destruct Hph as [-> Hk]. injection Hstep as <-.
      pose proof (holders_lookup ms i Shared Hm). split.
      * apply (protocol_update ths ms i env Shared); [done|apply Hk|].
        by rewrite list_insert_id.
      * intros Hd. apply disciplined_record; [done|discriminate|].
        intros id0 _. cbn. destruct wr; agrees.
    + (* MapStore *)
      destruct Hph as [-> Hk]. destruct tr as [reg|]; injection Hstep as <-.
      * split.
        -- apply (protocol_update ths ms i env Free); [done|done|].
           by rewrite list_insert_id.
        -- intros Hd. apply disciplined_record; [done|discriminate|discriminate].
      * split; [|done].
        apply (protocol_update ths ms i env Free); [done| |].
        ++ split; [done|by left].
        ++ by rewrite list_insert_id.
    + (* MapMake *)
      destruct Hph as [-> Hk]. injection Hstep as <-.
      pose proof (holders_lookup ms i Excl Hm). split.
      * apply (protocol_update ths ms i env Excl); [done|done|].
        by rewrite list_insert_id.
      * intros Hd. apply disciplined_record; [done| |discriminate].
        intros _. cbn. destruct wr; [|exfalso; agrees].
        f_equal. agrees.
Qed.

Lemma run_protocol t sched : forall c c',
  protocol c ->
  run t sched c = Some c' ->
  protocol c' /\ (disciplined (cfg_state c) -> disciplined (cfg_state c')).
Proof.
  induction sched as [|i sched IH]; intros c c' Hp Hrun; simpl in Hrun.
  - injection Hrun as <-. by split.
  - destruct (step t i c) as [c1|] eqn:Hs; [|discriminate].
    destruct (step_protocol t i c c1 Hp Hs) as [Hp1 Hd1].
    destruct (IH c1 c' Hp1 Hrun) as [Hp2 Hd2]. split; [done|]. auto.
Qed.

Lemma spawn_protocol t s reqs : mutex_free s -> protocol (spawn t s reqs).
Proof.
  intros Hm. exists (map (fun _ => Free) reqs). unfold spawn. cbn. split.
  - induction reqs as [|er reqs IH]; cbn; constructor; [|exact IH].
    unfold thread_mode. cbn. apply phase_ServeHTTP.
  - rewrite Hm. unfold mutex_agrees. cbn.
    assert (forall x, x <> Free -> holders x (map (fun _ => Free) reqs) = 0) as H0.
    { intros x Hx. apply holders_all_free; [done|].
      apply Forall_forall. intros m Hin. apply list_elem_of_fmap in Hin.
      by destruct Hin as (? & -> & _). }
    rewrite !H0 by discriminate. done.
Qed.

(** X12.  However the operations of the requests are interleaved, and
    whatever the requests are, the registry is replaced (by a reset) only
    while the writer holds the mutex and no reader does, and it is looked
    up (by a read) only while a reader holds the mutex and no writer does. *)
Theorem lock_discipline_any_schedule t s reqs sched c :
  mutex_free s ->
  disciplined s ->
  run t sched (spawn t s reqs) = Some c ->
  disciplined (cfg_state c).
Proof.
  intros Hm Hd Hrun.
  destruct (run_protocol t sched _ _ (spawn_protocol t s reqs Hm) Hrun) as [_ H].
  by apply H.
Qed.

Lemma all_free ths ms :
  Forall2 thread_mode ths ms -> Forall over ths -> Forall (fun m => m = Free) ms.
Proof.
  induction 1 as [|th m ths ms Hth _ IH]; intros Hover; [constructor|].
  apply Forall_cons in Hover as [Ho Hover]. constructor; [|by apply IH].
  unfold thread_mode in Hth. unfold over in Ho.
  destruct (th_state th); [done|done|by destruct Hth].
Qed.

(** X13.  No request keeps the mutex: however the requests are interleaved,
    once all of them have returned or panicked the mutex is free. *)
Theorem mutex_free_when_over t s reqs sched c :
  mutex_free s ->
  run t sched (spawn t s reqs) = Some c ->
  Forall over (cfg_threads c) ->
  mutex_free (cfg_state c).
Proof.
  intros Hm Hrun Hover.
  destruct (run_protocol t sched _ _ (spawn_protocol t s reqs Hm) Hrun)
    as [(ms & Hall & Hag) _].
  pose proof (all_free _ _ Hall Hover) as Hfree.
  destruct Hag as (Hr & He & _). unfold mutex_free.
  rewrite holders_all_free in Hr by done.
  rewrite holders_all_free in He by done.
  destruct (mu (cfg_state c)) as [wr n]. cbn in *. subst n.
  by destruct wr.
Qed.


Section Progress.

Variable t : Tracer.

Lemma holders_pos x ms : 0 < holders x ms -> exists j, ms !! j = Some x.
Proof.
  induction ms as [|m ms IH]; simpl; [lia|]. case_decide as Hx.
  - intros _. exists 0. by subst.
  - intros H. destruct IH as [j Hj]; [lia|]. by exists (S j).
Qed.

(** A request that holds the mutex is not the one that waits. *)
Lemma step_of_holder c j env p m :
  cfg_threads c !! j = Some (MkThread env (Running p)) ->
  phase m p -> m <> Free ->
  is_Some (step t j c).
Proof.
  intros Hth Hph Hm. unfold step. rewrite Hth.
  destruct p as [a|msg|B cmd k]; cbn in Hph.
  - done.
  - by destruct Hph.
  - destruct cmd; cbn in Hph |- *;
      try (by destruct Hph);
      repeat match goal with
             | |- context [if ?b then _ else _] => destruct b
             | |- context [match readers ?x with _ => _ end] => destruct (readers x)
             | |- context [match traces ?x with _ => _ end] => destruct (traces x)
             end; eauto.
Qed.

(** With the mutex free, no request waits. *)
Lemma step_when_free c i env p :
  mu (cfg_state c) = MkMu false 0 ->
  cfg_threads c !! i = Some (MkThread env (Running p)) ->
  is_Some (step t i c).
Proof.
  intros Hmu Hth. unfold step. rewrite Hth.
  destruct p as [a|msg|B cmd k]; [eauto|eauto|].
  destruct cmd; cbn; rewrite ?Hmu; cbn;
    repeat match goal with
           | |- context [match traces ?x with _ => _ end] => destruct (traces x)
           end; eauto.
Qed.

End Progress.

(** X15.  The requests never all wait for each other: however they are
    interleaved, as long as one of them has neither returned nor panicked,
    one of them can run its next operation.  The downstream handler is
    taken to return and not to call the tracer itself. *)
Theorem no_deadlock t s reqs sched c i th :
  mutex_free s ->
  run t sched (spawn t s reqs) = Some c ->
  cfg_threads c !! i = Some th ->
  ~ over th ->
  exists j c', step t j c = Some c'.
Proof.
  intros Hm Hrun Hth Hno.
  destruct (run_protocol t sched _ _ (spawn_protocol t s reqs Hm) Hrun)
    as [(ms & Hall & Hag) _].
  assert (forall j, is_Some (step t j c) -> exists j c', step t j c = Some c') as Hex.
  { intros j [c' Hc']. by exists j, c'. }
  destruct (decide (holders Shared ms + holders Excl ms = 0)) as [Hz|Hnz].
  - apply (Hex i). destruct th as [env st]. unfold over in Hno. cbn in Hno.
    destruct st as [p| |]; [|by destruct Hno|by destruct Hno].
    apply (step_when_free t c i env p); [|done].
    destruct Hag as (Hr & He & _).
    destruct (mu (cfg_state c)) as [wr n]. cbn in *.
    destruct wr; [lia|]. f_equal. lia.
  - assert (exists x, x <> Free /\ 0 < holders x ms) as (x & Hx & Hpos).
    { destruct (holders Shared ms) eqn:E.
      - exists Excl. split; [done|lia].
      - exists Shared. split; [done|lia]. }
    destruct (holders_pos x ms Hpos) as [j Hj].
    destruct (Forall2_lookup_r _ _ _ _ _ Hall Hj) as ([env st] & Hthj & Hph).
    apply (Hex j). unfold thread_mode in Hph. cbn in Hph.
    destruct st as [p| |].
    + by apply (step_of_holder t c j env p x).
    + congruence.
    + destruct Hph. congruence.
Qed.

(** ** The shared tier *)

Section SharedTier.

Variable t : Tracer.

Lemma shared_ServeHTTP w r :
  action_of t r = ActPass \/ action_of t r = ActRead ->
  shared_tier (ServeHTTP t w r).
Proof.
  intros Ha. rewrite ServeHTTP_unfold. fold (action_of t r).
  destruct Ha as [-> | ->]; unfold passthrough, read; cbn.
  - repeat split.
  - split; [done|]. intros _. split; [done|]. intros [buf|]; cbn; repeat split.
Qed.

Lemma step_shared i c c' :
  writer (mu (cfg_state c)) = false ->
  Forall shared_thread (cfg_threads c) ->
  step t i c = Some c' ->
  writer (mu (cfg_state c')) = false /\
  traces (cfg_state c') = traces (cfg_state c) /\
  Forall shared_thread (cfg_threads c').
Proof.
  intros Hw Hall Hstep. unfold step in Hstep.
  destruct (cfg_threads c !! i) as [[env st]|] eqn:Hth; [|discriminate].
  destruct st as [p| |]; try discriminate.
  pose proof (Forall_lookup_1 _ _ _ _ Hall Hth) as Hp.
  unfold shared_thread in Hp. cbn in Hp.
  destruct p as [a|msg|B cmd k].
  - injection Hstep as <-. cbn. repeat split; [done|]. by apply Forall_insert.
  - injection Hstep as <-. cbn. repeat split; [done|]. by apply Forall_insert.
  - destruct Hp as [Hc Hk]. destruct cmd; cbn in Hc; try done; cbn in Hstep.
    + rewrite Hw in Hstep. injection Hstep as <-. cbn.
      repeat split. apply Forall_insert; [done|apply Hk].
    + destruct (readers (mu (cfg_state c))); injection Hstep as <-; cbn.
      * repeat split; [done|]. by apply Forall_insert.
      * repeat split; [done|]. apply Forall_insert; [done|apply Hk].
    + injection Hstep as <-. cbn. repeat split; [done|].
      apply Forall_insert; [done|apply Hk].
    + injection Hstep as <-. cbn. repeat split; [done|].
      apply Forall_insert; [done|apply Hk].
Qed.

Lemma run_shared sched : forall c c',
  writer (mu (cfg_state c)) = false ->
  Forall shared_thread (cfg_threads c) ->
  run t sched c = Some c' ->
  writer (mu (cfg_state c')) = false /\
  traces (cfg_state c') = traces (cfg_state c) /\
  Forall shared_thread (cfg_threads c').
Proof.
  induction sched as [|i sched IH]; intros c c' Hw Hall Hrun; simpl in Hrun.
  - by injection Hrun as <-.
  - destruct (step t i c) as [c1|] eqn:Hs; [|discriminate].
    destruct (step_shared i c c1 Hw Hall Hs) as (Hw1 & Ht1 & Hall1).
    destruct (IH c1 c' Hw1 Hall1 Hrun) as (Hw2 & Ht2 & Hall2).
    repeat split; [done| |done]. congruence.
Qed.

Lemma step_shared_enabled i c env p :
  writer (mu (cfg_state c)) = false ->
  cfg_threads c !! i = Some (MkThread env (Running p)) ->
  shared_tier p ->
  is_Some (step t i c).
Proof.
  intros Hw Hth Hp. unfold step. rewrite Hth.
  destruct p as [a|msg|B cmd k]; [eauto|eauto|].
  destruct Hp as [Hc _]. destruct cmd; cbn in Hc; try done; cbn;
    rewrite ?Hw; try destruct (readers (mu (cfg_state c))); eauto.
Qed.

End SharedTier.

(** X16.  Pass-through requests and reads do not wait for each other and do
    not touch the registry: when they are the only requests and no writer
    holds the mutex at the start, then however they are interleaved the
    registry stays as it was, and each of them that has not returned can
    run its next operation at once. *)
Theorem shared_tier_never_waits t s reqs sched c :
  Forall (fun er => action_of t (snd er) = ActPass \/
                    action_of t (snd er) = ActRead) reqs ->
  writer (mu s) = false ->
  run t sched (spawn t s reqs) = Some c ->
  traces (cfg_state c) = traces s /\
  forall i th, cfg_threads c !! i = Some th -> ~ over th ->
    is_Some (step t i c).
Proof.
  intros Hreq Hw Hrun.
  assert (Forall shared_thread (cfg_threads (spawn t s reqs))) as Hall.
  { unfold spawn. cbn. apply Forall_fmap. eapply Forall_impl; [exact Hreq|].
    intros er Ha. unfold shared_thread. cbn. by apply shared_ServeHTTP. }
  destruct (run_shared t sched (spawn t s reqs) c Hw Hall Hrun)
    as (Hw' & Ht' & Hall').
  split; [exact Ht'|]. intros i [env st] Hth Hno.
  unfold over in Hno. cbn in Hno.
  destruct st as [p| |]; [|by destruct Hno|by destruct Hno].
  apply (step_shared_enabled t i c env p Hw' Hth).
  by apply (Forall_lookup_1 _ _ _ _ Hall' Hth).
Qed.

(** ** The command [treqs] against a tracer *)

Section Command.

Local Arguments Hdr.Set_ : simpl never.
Local Arguments Hdr.Del : simpl never.
Local Arguments list_byte_of_string : simpl never.
Local Arguments Nat.leb : simpl never.
Local Arguments take : simpl never.

Lemma Set_Get_same (h : Header) k v :
  Hdr.CanonicalMIMEHeaderKey k = k -> Hdr.Get (Hdr.Set_ h k v) k = v.
Proof. intros Hc. unfold Hdr.Get, Hdr.Set_. by rewrite Hc, lookup_insert_eq. Qed.

Lemma Set_Get_other (h : Header) k k' v :
  Hdr.CanonicalMIMEHeaderKey k = k -> Hdr.CanonicalMIMEHeaderKey k' = k' ->
  k <> k' -> Hdr.Get (Hdr.Set_ h k v) k' = Hdr.Get h k'.
Proof.
  intros Hc Hc' Hne. unfold Hdr.Get, Hdr.Set_.
  by rewrite Hc, Hc', lookup_insert_ne.
Qed.

(** The requests the command builds carry what it has set. *)
Lemma built_trace req0 key :
  let r := set_header (set_header req0 "X-Treqs-Action" "trace") "X-Treqs-Key" key in
  req_key r = key /\ req_action r = "trace".
Proof.
  unfold req_key, req_action, set_header, with_header. cbn [r_header]. split.
  - by apply Set_Get_same.
  - rewrite Set_Get_other by done. by apply Set_Get_same.
Qed.

Lemma built_read req0 key id :
  let r := set_header (set_header (set_header req0 "X-Treqs-Action" "read")
                                  "X-Treqs-Id" id) "X-Treqs-Key" key in
  req_key r = key /\ req_action r = "read" /\ req_id r = id.
Proof.
  unfold req_key, req_action, req_id, set_header, with_header. cbn [r_header].
  split; [|split].
  - by apply Set_Get_same.
  - rewrite !Set_Get_other by done. by apply Set_Get_same.
  - rewrite Set_Get_other by done. by apply Set_Get_same.
Qed.

Lemma new_id_not_empty env :
  32 <= length (rand_bytes env) -> String.eqb (new_id env) EmptyString = false.
Proof.
  intros Hr. apply String.eqb_neq. intros He.
  pose proof (new_id_length env Hr) as Hl. rewrite He in Hl. discriminate Hl.
Qed.

Lemma finish_written w : rw_wroteHeader w = true -> finish w = w.
Proof. intros Hw. unfold finish, RW.WriteHeader. by rewrite Hw. Qed.

Lemma response_of_written method w :
  rw_wroteHeader w = true ->
  method <> "HEAD" ->
  bodyAllowedForStatus (rw_status w) = true ->
  response_of method w = MkResponse (rw_status w) (rw_sent w) (rw_body w).
Proof.
  intros Hw Hm Hb. unfold response_of. rewrite (finish_written w Hw), Hb.
  apply String.eqb_neq in Hm. by rewrite Hm.
Qed.

Lemma RoundTrip_ok t envs r s n w s' :
  exec t (envs n) n (ServeHTTP t RW.new r) s = Ok w s' ->
  RoundTrip t envs r (s, n) = Some (inr (response_of (r_method r) w), (s', S n)).
Proof. intros H. unfold RoundTrip. cbn [fst snd]. by rewrite H. Qed.

Lemma success_is_no_redirect status :
  200 <= status <= 299 -> may_redirect status = false.
Proof.
  intros H. unfold may_redirect. cbn [existsb].
  repeat match goal with
         | |- context [(status =? ?k)%nat] =>
             destruct (Nat.eqb_spec status k) as [->|_]; [lia|]
         end.
  reflexivity.
Qed.

End Command.

Section CommandServed.

Local Arguments Hdr.Set_ : simpl never.
Local Arguments Hdr.Del : simpl never.
Local Arguments list_byte_of_string : simpl never.

Variable t : Tracer.
Variable envs : nat -> Env.

Lemma RoundTrip_trace_stored req0 key s n m :
  key = Key t -> keeps_id_header t -> answers_2xx t ->
  mutex_free s -> traces s = Some m ->
  32 <= length (rand_bytes (envs n)) -> start_err (envs n) = None ->
  exists res s1,
    RoundTrip t envs (set_header (set_header req0 "X-Treqs-Action" "trace")
                                 "X-Treqs-Key" key) (s, n) =
      Some (inr res, (s1, S n)) /\
    may_redirect (res_status res) = false /\
    Hdr.Get (res_header res) "X-Treqs-Id" = new_id (envs n) /\
    traces s1 = Some (<[new_id (envs n) := captured (envs n)]> m) /\
    mutex_free s1.
Proof.
  intros Hkey Hkeep H2xx Hm Ht Hr He.
  destruct (built_trace req0 key) as [Hk Ha].
  eexists _, _. split.
  - apply RoundTrip_ok. rewrite ServeHTTP_trace; [|by rewrite Hk|by rewrite Ha].
    apply (exec_trace_stored _ _ _ _ _ _ m Hm Hr He Ht).
  - split; [|split; [|split; [reflexivity|exact Hm]]].
    + unfold response_of. cbn [res_status].
      apply success_is_no_redirect, H2xx. reflexivity.
    + unfold response_of. cbn [res_header]. unfold Hdr.Get.
      change (Hdr.CanonicalMIMEHeaderKey "X-Treqs-Id") with xTReqsID.
      rewrite Hkeep by reflexivity. cbn [rw_header RW.HeaderSet].
      by rewrite Set_lookup_id.
Qed.

Lemma RoundTrip_trace_failed req0 key s n err :
  key = Key t ->
  mutex_free s ->
  32 <= length (rand_bytes (envs n)) -> start_err (envs n) = Some err ->
  exists res,
    RoundTrip t envs (set_header (set_header req0 "X-Treqs-Action" "trace")
                                 "X-Treqs-Key" key) (s, n) =
      Some (inr res, (MkState (mu s) (traces s) (trace_prefix n s false), S n)) /\
    res_status res = StatusInternalServerError /\
    Hdr.Get (res_header res) "X-Treqs-Id" = new_id (envs n).
Proof.
  intros Hkey Hm Hr He.
  destruct (built_trace req0 key) as [Hk Ha].
  destruct (start_failure_response RW.new (new_id (envs n)) err)
    as (H1 & _ & H3 & _); [by split|].
  eexists. split.
  - apply RoundTrip_ok. rewrite ServeHTTP_trace; [|by rewrite Hk|by rewrite Ha].
    apply (exec_trace_fail _ _ _ _ _ _ err Hm Hr He).
  - unfold response_of. rewrite finish_written by reflexivity.
    cbn [res_status res_header].
    split; [exact H1|]. unfold Hdr.Get.
    change (Hdr.CanonicalMIMEHeaderKey "X-Treqs-Id") with xTReqsID.
    by rewrite H3.
Qed.

Lemma RoundTrip_read req0 key id s n :
  key = Key t ->
  r_method req0 <> "HEAD" ->
  writer (mu s) = false ->
  exists res s1,
    RoundTrip t envs
      (set_header (set_header (set_header req0 "X-Treqs-Action" "read")
                              "X-Treqs-Id" id) "X-Treqs-Key" key) (s, n) =
      Some (inr res, (s1, S n)) /\
    traces s1 = traces s /\
    res_body res =
      match session s id with
      | Some buf => buf
      | None => list_byte_of_string ("404 page not found" ++ newline)
      end /\
    res_status res =
      match session s id with
      | Some _ => StatusOK
      | None => StatusNotFound
      end.
Proof.
  intros Hkey Hmeth Hw.
  destruct (built_read req0 key id) as (Hk & Ha & Hid).
  destruct (session s id) as [buf|] eqn:Hs.
  - eexists _, _. split.
    + apply RoundTrip_ok. rewrite ServeHTTP_read; [|by rewrite Hk|by rewrite Ha].
      rewrite Hid. apply (exec_read_found _ _ _ _ _ _ _ buf Hw Hs).
    + rewrite response_of_written by (reflexivity || exact Hmeth). done.
  - eexists _, _. split.
    + apply RoundTrip_ok. rewrite ServeHTTP_read; [|by rewrite Hk|by rewrite Ha].
      rewrite Hid. apply (exec_read_missing _ _ _ _ _ _ _ Hw Hs).
    + rewrite response_of_written by (reflexivity || exact Hmeth). done.
Qed.

Lemma RoundTrip_unauthorized req0 key s n :
  key <> Key t -> keeps_id_header t -> answers_2xx t ->
  writer (mu s) = false ->
  exists res s1,
    RoundTrip t envs (set_header (set_header req0 "X-Treqs-Action" "trace")
                                 "X-Treqs-Key" key) (s, n) =
      Some (inr res, (s1, S n)) /\
    may_redirect (res_status res) = false /\
    Hdr.Get (res_header res) "X-Treqs-Id" = EmptyString /\
    traces s1 = traces s.
Proof.
  intros Hkey Hkeep H2xx Hw.
  destruct (built_trace req0 key) as [Hk Ha].
  eexists _, _. split.
  - apply RoundTrip_ok. rewrite ServeHTTP_unauthorized by (by rewrite Hk).
    by apply exec_passthrough.
  - split; [|split; [|reflexivity]].
    + unfold response_of. cbn [res_status].
      apply success_is_no_redirect, H2xx. reflexivity.
    + unfold response_of. cbn [res_header]. unfold Hdr.Get.
      change (Hdr.CanonicalMIMEHeaderKey "X-Treqs-Id") with xTReqsID.
      by rewrite Hkeep.
Qed.

End CommandServed.

(** X17.  The command, run with the tracer's key and a method other than
    HEAD against a tracer whose registry has been made, writes to its
    standard output exactly the bytes captured during its trace request,
    and makes two requests for that; the session stays in the registry.
    The downstream handler is to answer with a status of success and to
    leave the id header alone; of the client it is taken that it returns
    the response of an exchange that is no redirect. *)
Theorem main_prints_trace (Do : Transport (State * nat)) t envs NewRequest
    fl req0 s n m :
  client_of Do (RoundTrip t envs) ->
  flag_url fl <> EmptyString ->
  NewRequest (flag_method fl) (flag_url fl) = inr req0 ->
  r_method req0 <> "HEAD" ->
  flag_key fl = Key t ->
  keeps_id_header t ->
  answers_2xx t ->
  mutex_free s ->
  traces s = Some m ->
  32 <= length (rand_bytes (envs n)) ->
  start_err (envs n) = None ->
  exists s2,
    main NewRequest Do fl (s, n) =
      Some (Exited (captured (envs n)), (s2, S (S n))) /\
    session s2 (new_id (envs n)) = Some (captured (envs n)).
Proof.
  intros Hcl Hurl Hnew Hmeth Hkey Hkeep H2xx Hm Ht Hr He.
  destruct (RoundTrip_trace_stored t envs req0 (flag_key fl) s n m
              Hkey Hkeep H2xx Hm Ht Hr He)
    as (res & s1 & Hrt & Hnr & Hid & Ht1 & Hm1).
  assert (session s1 (new_id (envs n)) = Some (captured (envs n))) as Hs1.
  { unfold session. rewrite Ht1. apply lookup_insert_eq. }
  destruct (RoundTrip_read t envs req0 (flag_key fl) (new_id (envs n)) s1 (S n)
              Hkey Hmeth (mutex_free_writer _ Hm1))
    as (res2 & s2 & Hrt2 & Ht2 & Hb & Hst).
  rewrite Hs1 in Hb, Hst.
  pose proof (Hcl _ _ _ _ Hrt Hnr) as Hdo.
  assert (may_redirect (res_status res2) = false) as Hnr2 by (by rewrite Hst).
  pose proof (Hcl _ _ _ _ Hrt2 Hnr2) as Hdo2.
  exists s2. split.
  - unfold main. apply String.eqb_neq in Hurl. rewrite Hurl, Hnew. cbn zeta.
    rewrite Hdo, Hid, (new_id_not_empty _ Hr), Hdo2, Hb. reflexivity.
  - unfold session in *. by rewrite Ht2.
Qed.

(** X18.  The command, run with a key that is not the tracer's, ends with
    the message that the trace request failed, after one request, which the
    tracer has served as ordinary traffic; the registry is as it was.  The
    downstream handler is to answer with a status of success and to leave
    the id header alone; of the client it is taken that it returns the
    response of an exchange that is no redirect. *)
Theorem main_wrong_key (Do : Transport (State * nat)) t envs NewRequest
    fl req0 s n :
  client_of Do (RoundTrip t envs) ->
  flag_url fl <> EmptyString ->
  NewRequest (flag_method fl) (flag_url fl) = inr req0 ->
  flag_key fl <> Key t ->
  keeps_id_header t ->
  answers_2xx t ->
  writer (mu s) = false ->
  exists s1,
    main NewRequest Do fl (s, n) =
      Some (Fatal "trace request failed, X-Treqs-Id header missing in response",
            (s1, S n)) /\
    traces s1 = traces s.
Proof.
  intros Hcl Hurl Hnew Hkey Hkeep H2xx Hw.
  destruct (RoundTrip_unauthorized t envs req0 (flag_key fl) s n
              Hkey Hkeep H2xx Hw) as (res & s1 & Hrt & Hnr & Hid & Ht1).
  pose proof (Hcl _ _ _ _ Hrt Hnr) as Hdo.
  exists s1. split; [|exact Ht1].
  unfold main. apply String.eqb_neq in Hurl. rewrite Hurl, Hnew. cbn zeta.
  rewrite Hdo, Hid. reflexivity.
Qed.

(** X19.  The command does not look at the status of a response.  Run with
    the tracer's key and a method other than HEAD, when the capture of its
    trace request does not start, the 500 response still carries an id,
    the command reads that id, and what it writes to its standard output,
    as if it were the trace, is the body of the 404 response; it does not
    end with an error.  Of the client it is taken that it returns the
    response of an exchange that is no redirect. *)
Theorem main_capture_failed (Do : Transport (State * nat)) t envs NewRequest
    fl req0 s n err :
  client_of Do (RoundTrip t envs) ->
  flag_url fl <> EmptyString ->
  NewRequest (flag_method fl) (flag_url fl) = inr req0 ->
  r_method req0 <> "HEAD" ->
  flag_key fl = Key t ->
  mutex_free s ->
  32 <= length (rand_bytes (envs n)) ->
  start_err (envs n) = Some err ->
  session s (new_id (envs n)) = None ->
  exists s2,
    main NewRequest Do fl (s, n) =
      Some (Exited (list_byte_of_string ("404 page not found" ++ newline)),
            (s2, S (S n))) /\
    traces s2 = traces s.
Proof.
  intros Hcl Hurl Hnew Hmeth Hkey Hm Hr He Hs.
  destruct (RoundTrip_trace_failed t envs req0 (flag_key fl) s n err
              Hkey Hm Hr He) as (res & Hrt & Hst & Hid).
  destruct (RoundTrip_read t envs req0 (flag_key fl) (new_id (envs n))
              (MkState (mu s) (traces s) (trace_prefix n s false)) (S n)
              Hkey Hmeth)
    as (res2 & s2 & Hrt2 & Ht2 & Hb & Hst2).
  { cbn. by apply mutex_free_writer. }
  assert (session (MkState (mu s) (traces s) (trace_prefix n s false))
            (new_id (envs n)) = None) as Hs' by exact Hs.
  rewrite Hs' in Hb, Hst2.
  assert (may_redirect (res_status res) = false) as Hnr by (by rewrite Hst).
  assert (may_redirect (res_status res2) = false) as Hnr2 by (by rewrite Hst2).
  pose proof (Hcl _ _ _ _ Hrt Hnr) as Hdo.
  pose proof (Hcl _ _ _ _ Hrt2 Hnr2) as Hdo2.
  exists s2. split; [|exact Ht2].
  unfold main. apply String.eqb_neq in Hurl. rewrite Hurl, Hnew. cbn zeta.
  rewrite Hdo, Hid, (new_id_not_empty _ Hr), Hdo2, Hb. reflexivity.
Qed.

(** ** The statements above, on concrete runs *)

Lemma disciplined_ready : disciplined Demo.ready.
Proof. intros e He. destruct (proj1 (elem_of_nil e) He). Qed.

Lemma hello_keeps_id_header : keeps_id_header Demo.tracer.
Proof.
  intros [h wr st sent body] r Hw. cbn in Hw. subst wr. reflexivity.
Qed.

Lemma lock_discipline_witness :
  disciplined
    (cfg_state (Scenes.outcome [1; 1; 1; 0; 0; 0; 1; 0] Scenes.reset_and_read)).
Proof.
  apply (lock_discipline_any_schedule Demo.tracer Demo.ready
           [(Demo.env, Demo.reset_req); (Demo.env, Demo.read_req)]
           [1; 1; 1; 0; 0; 0; 1; 0]).
  - reflexivity.
  - exact disciplined_ready.
  - vm_compute. reflexivity.
Defined.

Lemma mutex_free_when_over_witness :
  mutex_free
    (cfg_state (Scenes.outcome [0; 0; 0; 0; 1; 1; 1; 1; 0; 0; 0; 0] Demo.race)).
Proof.
  apply (mutex_free_when_over Demo.tracer Demo.ready
           [(Demo.env, Demo.trace_req); (Demo.env, Demo.plain)]
           [0; 0; 0; 0; 1; 1; 1; 1; 0; 0; 0; 0]).
  - reflexivity.
  - vm_compute. reflexivity.
  - let v := eval vm_compute in
        (cfg_threads
           (Scenes.outcome [0; 0; 0; 0; 1; 1; 1; 1; 0; 0; 0; 0] Demo.race)) in
    change (Forall over v).
    repeat (apply Forall_cons; split; [exact I|]). apply Forall_nil_2.
Defined.


Lemma no_deadlock_witness :
  exists j c', step Demo.tracer j (Scenes.outcome [0; 0; 0; 0; 1] Demo.race) = Some c'.
Proof.
  apply (no_deadlock Demo.tracer Demo.ready
           [(Demo.env, Demo.trace_req); (Demo.env, Demo.plain)]
           [0; 0; 0; 0; 1] (Scenes.outcome [0; 0; 0; 0; 1] Demo.race) 0
           (Scenes.thread 0 (Scenes.outcome [0; 0; 0; 0; 1] Demo.race))).
  - reflexivity.
  - vm_compute. reflexivity.
  - vm_compute. reflexivity.
  - vm_compute. intros H. exact H.
Defined.

Lemma shared_tier_witness :
  traces (cfg_state (Scenes.outcome [0; 1; 2; 2; 1; 0; 0; 1; 2; 2; 1; 0]
                       (spawn Demo.tracer Demo.traced Scenes.traffic))) =
    traces Demo.traced.
Proof.
  apply (shared_tier_never_waits Demo.tracer Demo.traced Scenes.traffic
           [0; 1; 2; 2; 1; 0; 0; 1; 2; 2; 1; 0]).
  - unfold Scenes.traffic.
    repeat (apply Forall_cons; split;
            [vm_compute; first [left; reflexivity|right; reflexivity]|]).
    apply Forall_nil_2.
  - vm_compute. reflexivity.
  - vm_compute. reflexivity.
Defined.

Lemma hello_answers_2xx : answers_2xx Demo.tracer.
Proof.
  intros [h wr st sent body] r Hw. cbn in Hw. subst wr. cbn. lia.
Qed.

Lemma RoundTrip_is_client t envs : client_of (RoundTrip t envs) (RoundTrip t envs).
Proof. intros r st res st' H _. exact H. Qed.

Lemma main_prints_trace_witness :
  exists s2,
    main Scenes.NewRequest (RoundTrip Demo.tracer Scenes.envs) Scenes.flags
         (Demo.ready, 0) =
      Some (Exited (captured Demo.env), (s2, 2)).
Proof.
  assert (32 <= length (rand_bytes (Scenes.envs 0))) as Hr by (vm_compute; lia).
  destruct (main_prints_trace (RoundTrip Demo.tracer Scenes.envs)
              Demo.tracer Scenes.envs Scenes.NewRequest
              Scenes.flags (MkRequest "GET" "http://localhost/pi" ∅ [])
              Demo.ready 0 ∅)
    as (s2 & H & _);
    [apply RoundTrip_is_client|intros H; discriminate H|reflexivity
    |intros H; discriminate H|reflexivity|exact hello_keeps_id_header
    |exact hello_answers_2xx|reflexivity|reflexivity|exact Hr|reflexivity|].
  exists s2. exact H.
Defined.

Lemma main_wrong_key_witness :
  exists s1,
    main Scenes.NewRequest (RoundTrip Demo.tracer Scenes.envs)
         (MkFlags "treqs" "GET" "http://localhost/pi") (Demo.ready, 0) =
      Some (Fatal "trace request failed, X-Treqs-Id header missing in response",
            (s1, 1)).
Proof.
  destruct (main_wrong_key (RoundTrip Demo.tracer Scenes.envs)
              Demo.tracer Scenes.envs Scenes.NewRequest
              (MkFlags "treqs" "GET" "http://localhost/pi")
              (MkRequest "GET" "http://localhost/pi" ∅ []) Demo.ready 0)
    as (s1 & H & _);
    [apply RoundTrip_is_client|intros H; discriminate H|reflexivity
    |intros H; discriminate H|exact hello_keeps_id_header
    |exact hello_answers_2xx|reflexivity|].
  exists s1. exact H.
Defined.

Lemma main_capture_failed_witness :
  exists s2,
    main Scenes.NewRequest (RoundTrip Demo.tracer Scenes.envs_fail) Scenes.flags
         (Demo.ready, 0) =
      Some (Exited (list_byte_of_string ("404 page not found" ++ newline)),
            (s2, 2)).
Proof.
  assert (32 <= length (rand_bytes (Scenes.envs_fail 0))) as Hr
    by (vm_compute; lia).
  destruct (main_capture_failed (RoundTrip Demo.tracer Scenes.envs_fail)
              Demo.tracer Scenes.envs_fail Scenes.NewRequest
              Scenes.flags (MkRequest "GET" "http://localhost/pi" ∅ [])
              Demo.ready 0 "tracing is already enabled")
    as (s2 & H & _);
    [apply RoundTrip_is_client|intros H; discriminate H|reflexivity
    |intros H; discriminate H|reflexivity|reflexivity|exact Hr
    |reflexivity|reflexivity|].
  exists s2. exact H.
Defined.
